(** * hikari: event factory, intents, embeds, time codec and task gatherers

    A shallow embedding of the parts of hikari that the specification
    talks about:

    - [Intents]      : hikari/intents.py, the gateway intent bit field;
    - [Embeds]       : hikari/embeds.py, the field list of [Embed];
    - [Time]         : hikari/internal/time.py, epoch <-> datetime codecs;
    - [EventFactory] : hikari/impl/event_factory.py, payload decoding;
    - [Aio]          : hikari/internal/aio.py, first_completed and all_of.

    Python exceptions are values of [exn]; a call that may raise returns a
    [result].  JSON payloads are [json] values whose objects are finite
    maps from strings. *)

From Stdlib Require Import ZArith Floats Bool Lia.
From stdpp Require Import gmap strings list fin_maps.

Local Open Scope Z_scope.

(** ** Exceptions and results *)

Inductive exn : Type :=
| KeyError (key : string)
| TypeError
| ValueError
| OSError
| OverflowError
| IndexError
| AttributeError
| ZeroDivisionError
| AssertionError
| CancelledError (msg : option string)
| TimeoutError (msg : option string)
| UserError (code : nat).

Inductive result (A : Type) : Type :=
| Return (a : A)
| Raise (e : exn).

Arguments Return {A} a.
Arguments Raise {A} e.

Definition bind {A B : Type} (r : result A) (k : A -> result B) : result B :=
  match r with
  | Return a => k a
  | Raise e => Raise e
  end.

Notation "x <- r ;; k" := (bind r (fun x => k))
  (at level 100, r at next level, right associativity).

(** ** hikari/intents.py *)

Module Intents.

(** [Intents] is an [enums.Flag]: an integer bit field.  [&] and [|] are
      the integer operations and [bool(flag)] is "value is not zero". *)
Definition Intents := Z.

Definition flag_and (a b : Intents) : Intents := Z.land a b.
Definition flag_or (a b : Intents) : Intents := Z.lor a b.
Definition flag_xor (a b : Intents) : Intents := Z.lxor a b.
Definition flag_bool (a : Intents) : bool := negb (a =? 0).

Definition NONE : Intents := 0.
Definition GUILDS : Intents := Z.shiftl 1 0.
Definition GUILD_MEMBERS : Intents := Z.shiftl 1 1.
Definition GUILD_MODERATION : Intents := Z.shiftl 1 2.
Definition GUILD_EMOJIS : Intents := Z.shiftl 1 3.
Definition GUILD_INTEGRATIONS : Intents := Z.shiftl 1 4.
Definition GUILD_WEBHOOKS : Intents := Z.shiftl 1 5.
Definition GUILD_INVITES : Intents := Z.shiftl 1 6.
Definition GUILD_VOICE_STATES : Intents := Z.shiftl 1 7.
Definition GUILD_PRESENCES : Intents := Z.shiftl 1 8.
Definition GUILD_MESSAGES : Intents := Z.shiftl 1 9.
Definition GUILD_MESSAGE_REACTIONS : Intents := Z.shiftl 1 10.
Definition GUILD_MESSAGE_TYPING : Intents := Z.shiftl 1 11.
Definition DM_MESSAGES : Intents := Z.shiftl 1 12.
Definition DM_MESSAGE_REACTIONS : Intents := Z.shiftl 1 13.
Definition DM_MESSAGE_TYPING : Intents := Z.shiftl 1 14.
Definition MESSAGE_CONTENT : Intents := Z.shiftl 1 15.
Definition GUILD_SCHEDULED_EVENTS : Intents := Z.shiftl 1 16.
Definition AUTO_MODERATION_CONFIGURATION : Intents := Z.shiftl 1 20.
Definition AUTO_MODERATION_EXECUTION : Intents := Z.shiftl 1 21.
Definition GUILD_MESSAGE_POLLS : Intents := Z.shiftl 1 24.
Definition DIRECT_MESSAGE_POLLS : Intents := Z.shiftl 1 25.

Definition flag_union (l : list Intents) : Intents := foldr flag_or NONE l.

Definition ALL_GUILDS_UNPRIVILEGED : Intents :=
    flag_union
      [GUILDS; GUILD_EMOJIS; GUILD_INTEGRATIONS; GUILD_WEBHOOKS; GUILD_INVITES;
       GUILD_VOICE_STATES; GUILD_MESSAGES; GUILD_MESSAGE_REACTIONS;
       GUILD_MESSAGE_TYPING; GUILD_MODERATION; GUILD_SCHEDULED_EVENTS;
       GUILD_MESSAGE_POLLS].
Definition ALL_GUILDS_PRIVILEGED : Intents := flag_or GUILD_MEMBERS GUILD_PRESENCES.
Definition ALL_GUILDS : Intents := flag_or ALL_GUILDS_UNPRIVILEGED ALL_GUILDS_PRIVILEGED.
Definition ALL_DMS : Intents :=
    flag_union [DM_MESSAGES; DM_MESSAGE_TYPING; DM_MESSAGE_REACTIONS; DIRECT_MESSAGE_POLLS].
Definition ALL_MESSAGES : Intents := flag_or DM_MESSAGES GUILD_MESSAGES.
Definition ALL_POLLS : Intents := flag_or GUILD_MESSAGE_POLLS DIRECT_MESSAGE_POLLS.
Definition ALL_MESSAGE_REACTIONS : Intents := flag_or DM_MESSAGE_REACTIONS GUILD_MESSAGE_REACTIONS.
Definition ALL_MESSAGE_TYPING : Intents := flag_or DM_MESSAGE_TYPING GUILD_MESSAGE_TYPING.
Definition ALL_AUTO_MODERATION : Intents :=
    flag_or AUTO_MODERATION_CONFIGURATION AUTO_MODERATION_EXECUTION.
Definition ALL_UNPRIVILEGED : Intents :=
    flag_union [ALL_GUILDS_UNPRIVILEGED; ALL_DMS; ALL_AUTO_MODERATION].
Definition ALL_PRIVILEGED : Intents := flag_or ALL_GUILDS_PRIVILEGED MESSAGE_CONTENT.
Definition ALL : Intents := flag_or ALL_UNPRIVILEGED ALL_PRIVILEGED.

(** [return bool(self & self.ALL_PRIVILEGED)] *)
Definition is_privileged (self : Intents) : bool :=
    flag_bool (flag_and self ALL_PRIVILEGED).

End Intents.

(** ** hikari/embeds.py *)

Module Embeds.

Set Implicit Arguments.

Record EmbedField : Type := mkEmbedField {
    name : string;
    value : string;
    _inline : bool
  }.

Record EmbedResourceWithProxy : Type := mkEmbedResource {
    resource : string;
    proxy_resource : option string
  }.

Record EmbedFooter : Type := mkEmbedFooter {
    footer_text : option string;
    footer_icon : option EmbedResourceWithProxy
  }.

Record EmbedImage : Type := mkEmbedImage {
    image_resource : EmbedResourceWithProxy;
    image_height : option Z;
    image_width : option Z
  }.

Record EmbedVideo : Type := mkEmbedVideo {
    video_resource : EmbedResourceWithProxy;
    video_height : option Z;
    video_width : option Z
  }.

Record EmbedProvider : Type := mkEmbedProvider {
    provider_name : option string;
    provider_url : option string
  }.

Record EmbedAuthor : Type := mkEmbedAuthor {
    author_name : option string;
    author_url : option string;
    author_icon : option EmbedResourceWithProxy
  }.

Section WithCollaborators.

(** [colors.Color] and [datetime.datetime] live outside embeds.py. *)
Variables Colorish Color datetime : Type.
Variable Color_of : Colorish -> result Color.
Variable tzinfo_is_None : datetime -> bool.
Variable astimezone : datetime -> datetime.

(** The slots of [Embed], in the order of [__slots__]. *)
Record Embed : Type := mkEmbed {
      _author : option EmbedAuthor;
      _color : option Color;
      _description : option string;
      _fields : option (list EmbedField);
      _footer : option EmbedFooter;
      _image : option EmbedImage;
      _provider : option EmbedProvider;
      _thumbnail : option EmbedImage;
      _timestamp : option datetime;
      _title : option string;
      _url : option string;
      _video : option EmbedVideo
    }.

Definition set_fields (self : Embed) (fs : option (list EmbedField)) : Embed :=
      mkEmbed (_author self) (_color self) (_description self) fs (_footer self)
              (_image self) (_provider self) (_thumbnail self) (_timestamp self)
              (_title self) (_url self) (_video self).

(** [Embed.from_received_embed]: every slot is taken as given. *)
Definition from_received_embed
        (title description url : option string) (color : option Color)
        (timestamp : option datetime) (image thumbnail : option EmbedImage)
        (video : option EmbedVideo) (author : option EmbedAuthor)
        (provider : option EmbedProvider) (footer : option EmbedFooter)
        (fields : option (list EmbedField)) : Embed :=
      mkEmbed author color description fields footer image provider thumbnail
              timestamp title url video.

(** [Embed.__init__] *)
Definition init (title description url : option string)
        (color colour : option Colorish) (timestamp : option datetime)
      : result Embed :=
      match color, colour with
      | Some _, Some _ => Raise TypeError
      | _, _ =>
        let color := match colour with Some c => Some c | None => color end in
        c <- match color with
             | Some c => (c' <- Color_of c ;; Return (Some c'))
             | None => Return None
             end ;;
        let timestamp :=
          match timestamp with
          | Some t => if tzinfo_is_None t then Some (astimezone t) else Some t
          | None => None
          end in
        Return (mkEmbed None c description None None None None None
                        timestamp title url None)
      end.

(** Truthiness of [self._fields]: [None] and the empty list are falsy. *)
Definition truthy (fs : option (list EmbedField)) : bool :=
      match fs with
      | Some (_ :: _) => true
      | _ => false
      end.

(** [return self._fields if self._fields else []] *)
Definition fields (self : Embed) : list EmbedField :=
      if truthy (_fields self)
      then match _fields self with Some l => l | None => [] end
      else [].

(** [Embed.add_field] *)
Definition add_field (name value : option string) (inline : bool)
        (self : Embed) : Embed :=
      let fs := match _fields self with Some l => l | None => [] end in
      let name := match name with Some n => n | None => EmptyString end in
      let value := match value with Some v => v | None => EmptyString end in
      set_fields self (Some (fs ++ [mkEmbedField name value inline])).

(** [del l[index]] on a Python list: negative indices count from the
        end, anything out of range raises [IndexError]. *)
Definition list_del {A : Type} (l : list A) (index : Z) : result (list A) :=
      let n := Z.of_nat (length l) in
      let i := if index <? 0 then index + n else index in
      if (i <? 0) || (n <=? i) then Raise IndexError
      else Return (take (Z.to_nat i) l ++ drop (S (Z.to_nat i)) l).

(** [Embed.remove_field] *)
Definition remove_field (index : Z) (self : Embed) : result Embed :=
      fs <- (if truthy (_fields self)
             then match _fields self with
                  | Some l => (l' <- list_del l index ;; Return (Some l'))
                  | None => Return None
                  end
             else Return (_fields self)) ;;
      Return (set_fields self (if truthy fs then fs else None)).

(** [Embed.clear_fields] *)
Definition clear_fields (self : Embed) : Embed := set_fields self None.

End WithCollaborators.

End Embeds.

(** ** hikari/internal/time.py *)

Module Time.

(** A Python number: an [int] of any size or a binary64 [float]. *)
Inductive pynum : Type :=
| PyInt (z : Z)
| PyFloat (f : float).

(** [float(z)]: round to nearest even, [OverflowError] beyond the largest
    double. *)
Definition int_to_float (z : Z) : result float :=
  match binary_normalize prec emax z 0 false with
  | S754_infinity _ => Raise OverflowError
  | sf => Return (SF2Prim sf)
  end.

(** [a / b] on two Python ints: the correctly rounded quotient. *)
Definition int_truediv (a b : Z) : result float :=
  if b =? 0 then Raise ZeroDivisionError
  else if a =? 0 then Return 0%float
  else
    let '(q, e, l) := SFdiv_core_binary prec emax (Z.abs a) 0 (Z.abs b) 0 in
    match binary_round_aux prec emax (xorb (a <? 0) (b <? 0)) q e l with
    | S754_infinity _ => Raise OverflowError
    | sf => Return (SF2Prim sf)
    end.

(** [x / d] for a number [x] and an int [d]. *)
Definition truediv (x : pynum) (d : Z) : result float :=
  match x with
  | PyInt z => int_truediv z d
  | PyFloat f =>
    if d =? 0 then Raise ZeroDivisionError
    else (df <- int_to_float d ;; Return (f / df)%float)
  end.

(** [x > 0] *)
Definition gt_zero (x : pynum) : bool :=
  match x with
  | PyInt z => 0 <? z
  | PyFloat f => (0 <? f)%float
  end.

(** Truncation toward zero of a finite double; [None] on nan and inf. *)
Definition float_trunc (f : float) : option Z :=
  match Prim2SF f with
  | S754_zero _ => Some 0
  | S754_finite s m e =>
    let a := if 0 <=? e then Zpos m * 2 ^ e else Zpos m / 2 ^ (- e) in
    Some (if s then - a else a)
  | _ => None
  end.

(** Rounding of a finite double to the nearest integer, ties to even
    ([_PyTime_RoundHalfEven]). *)
Definition float_round_half_even (f : float) : option Z :=
  match Prim2SF f with
  | S754_zero _ => Some 0
  | S754_finite s m e =>
    let a :=
      if 0 <=? e then Zpos m * 2 ^ e
      else
        let d := 2 ^ (- e) in
        let q := Zpos m / d in
        let r := Zpos m mod d in
        match 2 * r ?= d with
        | Lt => q
        | Gt => q + 1
        | Eq => if Z.even q then q else q + 1
        end in
    Some (if s then - a else a)
  | _ => None
  end.

(** [int(f)] *)
Definition float_to_int (f : float) : result Z :=
  match Prim2SF f with
  | S754_nan => Raise ValueError
  | S754_infinity _ => Raise OverflowError
  | _ => match float_trunc f with Some z => Return z | None => Raise ValueError end
  end.

(** An aware UTC [datetime.datetime], held as its count of microseconds
    since 1970-01-01T00:00:00Z.  [datetime.min] is 0001-01-01T00:00:00 and
    [datetime.max] is 9999-12-31T23:59:59.999999. *)
Record datetime : Type := mk_datetime { micros : Z }.

Definition us_per_second : Z := 1000000.
Definition min_seconds : Z := -62135596800.
Definition max_seconds : Z := 253402300799.
Definition datetime_min : datetime := mk_datetime (min_seconds * us_per_second).
Definition datetime_max : datetime :=
  mk_datetime (max_seconds * us_per_second + 999999).

(** The platform's [time_t] is a signed 64-bit integer, and the range check
    compares doubles, so the upper bound is the double next to
    [2 ** 63 - 1]; [gmtime_r] fails with EOVERFLOW when the year does not
    fit a C [int]. *)
Definition time_t_min : Z := - 2 ^ 63.
Definition time_t_max : Z := 2 ^ 63.
Definition gmtime_min : Z := -67768040609740800.
Definition gmtime_max : Z := 67768036191676799.

(** [datetime.datetime.fromtimestamp(t, datetime.timezone.utc)] for a float
    [t]: the seconds are split off, the fraction is rounded half-even to
    microseconds, then the range checks of the C library and of the
    calendar apply in this order. *)
Definition fromtimestamp (t : float) : result datetime :=
  match Prim2SF t with
  | S754_nan => Raise ValueError
  | S754_infinity _ => Raise OverflowError
  | _ =>
    match float_trunc t with
    | None => Raise ValueError
    | Some intpart =>
      ipf <- int_to_float intpart ;;
      let floatpart := ((t - ipf) * 1000000)%float in
      match float_round_half_even floatpart with
      | None => Raise ValueError
      | Some us =>
        let '(sec, us) :=
          if us_per_second <=? us then (intpart + 1, us - us_per_second)
          else if us <? 0 then (intpart - 1, us + us_per_second)
          else (intpart, us) in
        if negb ((time_t_min <=? sec) && (sec <=? time_t_max))
        then Raise OverflowError
        else if negb ((gmtime_min <=? sec) && (sec <=? gmtime_max))
        then Raise OSError
        else if negb ((min_seconds <=? sec) && (sec <=? max_seconds))
        then Raise ValueError
        else Return (mk_datetime (sec * us_per_second + us))
      end
    end
  end.

(** A [datetime.timedelta], in microseconds. *)
Definition timedelta := Z.

(** [DISCORD_EPOCH = datetime.timedelta(seconds=1_420_070_400)] *)
Definition DISCORD_EPOCH : timedelta := 1420070400 * us_per_second.

Definition in_calendar (us : Z) : bool :=
  (micros datetime_min <=? us) && (us <=? micros datetime_max).

(** [d + delta] and [d - delta]; leaving the calendar is [OverflowError]. *)
Definition datetime_add (d : datetime) (delta : timedelta) : result datetime :=
  let r := micros d + delta in
  if in_calendar r then Return (mk_datetime r) else Raise OverflowError.

Definition datetime_sub (d : datetime) (delta : timedelta) : result datetime :=
  datetime_add d (- delta).

(** [d.timestamp()] of an aware datetime: [(d - EPOCH).total_seconds()],
    the true division of the microsecond count by [10**6]. *)
Definition timestamp (d : datetime) : result float :=
  int_truediv (micros d) us_per_second.

(** [return datetime.datetime.fromtimestamp(epoch / 1_000, utc) + DISCORD_EPOCH] *)
Definition discord_epoch_to_datetime (epoch : Z) : result datetime :=
  t <- int_truediv epoch 1000 ;;
  d <- fromtimestamp t ;;
  datetime_add d DISCORD_EPOCH.

(** [return int((timestamp - DISCORD_EPOCH).timestamp() * 1_000)] *)
Definition datetime_to_discord_epoch (ts : datetime) : result Z :=
  d <- datetime_sub ts DISCORD_EPOCH ;;
  s <- timestamp d ;;
  float_to_int (s * 1000)%float.

(** The handler [except (OSError, ValueError)]. *)
Definition caught (e : exn) : bool :=
  match e with
  | OSError | ValueError => true
  | _ => false
  end.

(** [(is_millis * 1_000) or 1] *)
Definition divisor (is_millis : bool) : Z :=
  let d := (if is_millis then 1 else 0) * 1000 in
  if d =? 0 then 1 else d.

(** [unix_epoch_to_datetime(epoch, *, is_millis=True)].  [epoch] is
    rebound by the division, so the handler sees the divided value when
    the division went through and the argument otherwise. *)
Definition unix_epoch_to_datetime (epoch : pynum) (is_millis : bool)
  : result datetime :=
  let handler (epoch : pynum) (e : exn) : result datetime :=
    if caught e
    then Return (if gt_zero epoch then datetime_max else datetime_min)
    else Raise e in
  match truediv epoch (divisor is_millis) with
  | Raise e => handler epoch e
  | Return t =>
    match fromtimestamp t with
    | Return d => Return d
    | Raise e => handler (PyFloat t) e
    end
  end.

(** The round trip of the Discord epoch codec. *)
Definition round_trip (x : Z) : result Z :=
  d <- discord_epoch_to_datetime x ;; datetime_to_discord_epoch d.

(** Whether the round trip of [x] gives something else than [x]. *)
Definition round_trip_fails (x : Z) : bool :=
  match round_trip x with
  | Return y => negb (y =? x)
  | Raise _ => true
  end.

End Time.

(** ** JSON payloads ([data_binding.JSONObject]) *)

Module Json.

(** A decoded JSON value; [JNull] is Python's [None]. *)
#[warnings="-register-all"]
Inductive json : Type :=
| JNull
| JBool (b : bool)
| JInt (z : Z)
| JFloat (f : float)
| JStr (s : string)
| JArr (l : list json)
| JObj (m : gmap string json).

(** Python truthiness of a decoded value. *)
Definition truthy (j : json) : bool :=
  match j with
  | JNull => false
  | JBool b => b
  | JInt z => negb (z =? 0)
  | JFloat f => negb (f =? 0)%float
  | JStr s => negb (String.eqb s EmptyString)
  | JArr l => negb (Nat.eqb (length l) 0)
  | JObj m => negb (Nat.eqb (size m) 0)
  end.

Definition is_None (j : json) : bool :=
  match j with JNull => true | _ => false end.

(** A JSON object is a Python [dict] with string keys. *)
Abbreviation JSONObject := (gmap string json).

(** [payload[key]] *)
Definition getitem (payload : JSONObject) (key : string) : result json :=
  match payload !! key with
  | Some v => Return v
  | None => Raise (KeyError key)
  end.

(** [key in payload] *)
Definition contains (payload : JSONObject) (key : string) : bool :=
  bool_decide (is_Some (payload !! key)).

(** [payload.get(key)]: [None] when the key is missing. *)
Definition get (payload : JSONObject) (key : string) : json :=
  default JNull (payload !! key).

(** Looking up the method [get] on a value that came out of a payload:
    only a [dict] has it. *)
Definition as_dict (j : json) : result JSONObject :=
  match j with
  | JObj m => Return m
  | _ => Raise AttributeError
  end.

(** [len(j)] *)
Definition len (j : json) : result Z :=
  match j with
  | JObj m => Return (Z.of_nat (size m))
  | JArr l => Return (Z.of_nat (length l))
  | JStr s => Return (Z.of_nat (String.length s))
  | _ => Raise TypeError
  end.

End Json.

(** ** hikari/undefined.py: the three states of an optional field *)

Inductive UndefinedOr (A : Type) : Type :=
| UNDEFINED
| Defined (a : A).

Arguments UNDEFINED {A}.
Arguments Defined {A} a.

(** ** hikari/impl/event_factory.py *)

Module EventFactory.
Import Json.

Set Implicit Arguments.

(** [snowflakes.Snowflake] is a subclass of [int]. *)
Definition Snowflake := Z.

(** The name of a reaction emoji: the payload value as it came, or that
    value wrapped by [emojis.UnicodeEmoji]. *)
Inductive EmojiName : Type :=
| RawName (j : json)
| UnicodeEmoji (j : json).

Section Collaborators.

(** Entities built outside the event factory. *)
Variables Shard Member Message PartialMessage MemberPresence : Type.
Variables UserFlag Color AvatarDecoration : Type.

(** What the factory calls but does not define: the constructors of
    [snowflakes], [users] and [colors], the ISO-8601 parser chosen at
    import time, the entity factory reached through [self._app], and the
    attributes it reads off the entities. *)
Record App : Type := mkApp {
  Snowflake_of : json -> result Snowflake;
  UserFlag_of : json -> result UserFlag;
  Color_of : json -> result Color;
  iso8601_datetime_string_to_datetime : json -> result Time.datetime;
  deserialize_member : json -> Snowflake -> result Member;
  deserialize_message : JSONObject -> result Message;
  deserialize_partial_message : JSONObject -> result PartialMessage;
  deserialize_member_presence : JSONObject -> result MemberPresence;
  message_guild_id : Message -> option Snowflake;
  partial_message_guild_id : PartialMessage -> option Snowflake;
  member_guild_id : Member -> Snowflake
}.

(** [users.PartialUserImpl] as the presence update builds it. *)
Record PartialUser : Type := mkPartialUser {
  id : Snowflake;
  discriminator : UndefinedOr json;
  username : UndefinedOr json;
  global_name : UndefinedOr json;
  avatar_decoration : UndefinedOr (option AvatarDecoration);
  avatar_hash : UndefinedOr json;
  banner_hash : UndefinedOr json;
  accent_color : UndefinedOr (option Color);
  is_bot : UndefinedOr json;
  is_system : UndefinedOr json;
  flags : UndefinedOr UserFlag
}.

(** The event variants the modelled operations build.  The back reference
    [app] carries no payload data and is left out. *)
Inductive Event : Type :=
| GuildMessageCreateEvent (shard : Shard) (message : Message)
| DMMessageCreateEvent (shard : Shard) (message : Message)
| GuildMessageUpdateEvent (shard : Shard) (message : PartialMessage)
    (old_message : option PartialMessage)
| DMMessageUpdateEvent (shard : Shard) (message : PartialMessage)
    (old_message : option PartialMessage)
| GuildMessageDeleteEvent (shard : Shard) (channel_id message_id guild_id : Snowflake)
    (old_message : option Message)
| DMMessageDeleteEvent (shard : Shard) (channel_id message_id : Snowflake)
    (old_message : option Message)
| GuildPinsUpdateEvent (shard : Shard) (channel_id guild_id : Snowflake)
    (last_pin_timestamp : option Time.datetime)
| DMPinsUpdateEvent (shard : Shard) (channel_id : Snowflake)
    (last_pin_timestamp : option Time.datetime)
| GuildTypingEvent (shard : Shard) (channel_id guild_id : Snowflake)
    (timestamp : Time.datetime) (member : Member)
| DMTypingEvent (shard : Shard) (channel_id user_id : Snowflake)
    (timestamp : Time.datetime)
| GuildReactionAddEvent (shard : Shard) (member : Member)
    (channel_id message_id : Snowflake) (emoji_id : option Snowflake)
    (emoji_name : EmojiName) (is_animated : bool)
| DMReactionAddEvent (shard : Shard) (channel_id message_id user_id : Snowflake)
    (emoji_id : option Snowflake) (emoji_name : EmojiName) (is_animated : bool)
| GuildReactionDeleteEvent (shard : Shard) (user_id guild_id channel_id message_id : Snowflake)
    (emoji_id : option Snowflake) (emoji_name : EmojiName)
| DMReactionDeleteEvent (shard : Shard) (user_id channel_id message_id : Snowflake)
    (emoji_id : option Snowflake) (emoji_name : EmojiName)
| GuildReactionDeleteAllEvent (shard : Shard) (guild_id channel_id message_id : Snowflake)
| DMReactionDeleteAllEvent (shard : Shard) (channel_id message_id : Snowflake)
| GuildReactionDeleteEmojiEvent (shard : Shard) (emoji_id : option Snowflake)
    (emoji_name : EmojiName) (guild_id channel_id message_id : Snowflake)
| DMReactionDeleteEmojiEvent (shard : Shard) (emoji_id : option Snowflake)
    (emoji_name : EmojiName) (channel_id message_id : Snowflake)
| PollVoteCreateEvent (shard : Shard) (user_id channel_id message_id : Snowflake)
    (guild_id : option Snowflake) (answer_id : json)
| PollVoteDeleteEvent (shard : Shard) (user_id channel_id message_id : Snowflake)
    (guild_id : option Snowflake) (answer_id : json)
| PresenceUpdateEvent (shard : Shard) (presence : MemberPresence)
    (user : option PartialUser) (old_presence : option MemberPresence).

Variable app : App.

(** [Snowflake(payload[key])] *)
Definition snowflake_at (payload : JSONObject) (key : string) : result Snowflake :=
  raw <- getitem payload key ;;
  Snowflake_of app raw.

(** [deserialize_channel_pins_update_event] *)
Definition deserialize_channel_pins_update_event (shard : Shard)
    (payload : JSONObject) : result Event :=
  channel_id <- snowflake_at payload "channel_id" ;;
  last_pin_timestamp <-
    (let raw := get payload "last_pin_timestamp" in
     if negb (is_None raw)
     then (t <- iso8601_datetime_string_to_datetime app raw ;; Return (Some t))
     else Return None) ;;
  if contains payload "guild_id"
  then (guild_id <- snowflake_at payload "guild_id" ;;
        Return (GuildPinsUpdateEvent shard channel_id guild_id last_pin_timestamp))
  else Return (DMPinsUpdateEvent shard channel_id last_pin_timestamp).

(** The argument of [time.unix_epoch_to_datetime] when it comes from a
    payload: a JSON number ([bool] is an [int]); dividing anything else
    raises [TypeError]. *)
Definition as_number (j : json) : result Time.pynum :=
  match j with
  | JInt z => Return (Time.PyInt z)
  | JBool b => Return (Time.PyInt (if b then 1 else 0))
  | JFloat f => Return (Time.PyFloat f)
  | _ => Raise TypeError
  end.

(** [deserialize_typing_start_event] *)
Definition deserialize_typing_start_event (shard : Shard)
    (payload : JSONObject) : result Event :=
  channel_id <- snowflake_at payload "channel_id" ;;
  raw <- getitem payload "timestamp" ;;
  epoch <- as_number raw ;;
  timestamp <- Time.unix_epoch_to_datetime epoch false ;;
  if contains payload "guild_id"
  then (guild_id <- snowflake_at payload "guild_id" ;;
        raw_member <- getitem payload "member" ;;
        member <- deserialize_member app raw_member guild_id ;;
        Return (GuildTypingEvent shard channel_id guild_id timestamp member))
  else (user_id <- snowflake_at payload "user_id" ;;
        Return (DMTypingEvent shard channel_id user_id timestamp)).

(** [deserialize_message_create_event] *)
Definition deserialize_message_create_event (shard : Shard)
    (payload : JSONObject) : result Event :=
  message <- deserialize_message app payload ;;
  match message_guild_id app message with
  | None => Return (DMMessageCreateEvent shard message)
  | Some _ => Return (GuildMessageCreateEvent shard message)
  end.

(** [deserialize_message_update_event] *)
Definition deserialize_message_update_event (shard : Shard)
    (payload : JSONObject) (old_message : option PartialMessage) : result Event :=
  message <- deserialize_partial_message app payload ;;
  match partial_message_guild_id app message with
  | None => Return (DMMessageUpdateEvent shard message old_message)
  | Some _ => Return (GuildMessageUpdateEvent shard message old_message)
  end.

(** [deserialize_message_delete_event] *)
Definition deserialize_message_delete_event (shard : Shard)
    (payload : JSONObject) (old_message : option Message) : result Event :=
  channel_id <- snowflake_at payload "channel_id" ;;
  message_id <- snowflake_at payload "id" ;;
  if contains payload "guild_id"
  then (guild_id <- snowflake_at payload "guild_id" ;;
        Return (GuildMessageDeleteEvent shard channel_id message_id guild_id old_message))
  else Return (DMMessageDeleteEvent shard channel_id message_id old_message).

(** [deserialize_message_reaction_add_event] *)
Definition deserialize_message_reaction_add_event (shard : Shard)
    (payload : JSONObject) : result Event :=
  channel_id <- snowflake_at payload "channel_id" ;;
  message_id <- snowflake_at payload "message_id" ;;
  raw_payload <- getitem payload "emoji" ;;
  emoji_payload <- as_dict raw_payload ;;
  let raw_emoji_id := get emoji_payload "id" in
  emoji_id <-
    (if truthy raw_emoji_id
     then (s <- Snowflake_of app raw_emoji_id ;; Return (Some s))
     else Return None) ;;
  let is_animated :=
    truthy (default (JBool false) (emoji_payload !! "animated")) in
  let falsy_id :=
    match emoji_id with Some s => s =? 0 | None => true end in
  name <- getitem emoji_payload "name" ;;
  let emoji_name := if falsy_id then UnicodeEmoji name else RawName name in
  if contains payload "member"
  then (guild_id <- snowflake_at payload "guild_id" ;;
        raw_member <- getitem payload "member" ;;
        member <- deserialize_member app raw_member guild_id ;;
        Return (GuildReactionAddEvent shard member channel_id message_id
                  emoji_id emoji_name is_animated))
  else (user_id <- snowflake_at payload "user_id" ;;
        Return (DMReactionAddEvent shard channel_id message_id user_id
                  emoji_id emoji_name is_animated)).

(** [_split_reaction_emoji] *)
Definition _split_reaction_emoji (emoji_payload : json)
  : result (option Snowflake * EmojiName) :=
  d <- as_dict emoji_payload ;;
  let emoji_id := get d "id" in
  if negb (is_None emoji_id)
  then (s <- Snowflake_of app emoji_id ;;
        name <- getitem d "name" ;;
        Return (Some s, RawName name))
  else (name <- getitem d "name" ;;
        Return (None, UnicodeEmoji name)).

(** [deserialize_message_reaction_remove_event] *)
Definition deserialize_message_reaction_remove_event (shard : Shard)
    (payload : JSONObject) : result Event :=
  channel_id <- snowflake_at payload "channel_id" ;;
  message_id <- snowflake_at payload "message_id" ;;
  user_id <- snowflake_at payload "user_id" ;;
  raw_emoji <- getitem payload "emoji" ;;
  emoji <- _split_reaction_emoji raw_emoji ;;
  if contains payload "guild_id"
  then (guild_id <- snowflake_at payload "guild_id" ;;
        Return (GuildReactionDeleteEvent shard user_id guild_id channel_id
                  message_id (fst emoji) (snd emoji)))
  else Return (DMReactionDeleteEvent shard user_id channel_id message_id
                 (fst emoji) (snd emoji)).

(** [deserialize_message_reaction_remove_all_event] *)
Definition deserialize_message_reaction_remove_all_event (shard : Shard)
    (payload : JSONObject) : result Event :=
  channel_id <- snowflake_at payload "channel_id" ;;
  message_id <- snowflake_at payload "message_id" ;;
  if contains payload "guild_id"
  then (guild_id <- snowflake_at payload "guild_id" ;;
        Return (GuildReactionDeleteAllEvent shard guild_id channel_id message_id))
  else Return (DMReactionDeleteAllEvent shard channel_id message_id).

(** [deserialize_message_reaction_remove_emoji_event] *)
Definition deserialize_message_reaction_remove_emoji_event (shard : Shard)
    (payload : JSONObject) : result Event :=
  channel_id <- snowflake_at payload "channel_id" ;;
  message_id <- snowflake_at payload "message_id" ;;
  raw_emoji <- getitem payload "emoji" ;;
  emoji <- _split_reaction_emoji raw_emoji ;;
  if contains payload "guild_id"
  then (guild_id <- snowflake_at payload "guild_id" ;;
        Return (GuildReactionDeleteEmojiEvent shard (fst emoji) (snd emoji)
                  guild_id channel_id message_id))
  else Return (DMReactionDeleteEmojiEvent shard (fst emoji) (snd emoji)
                 channel_id message_id).

(** [Snowflake(payload["guild_id"]) if "guild_id" in payload else None] *)
Definition optional_guild_id (payload : JSONObject) : result (option Snowflake) :=
  if contains payload "guild_id"
  then (g <- snowflake_at payload "guild_id" ;; Return (Some g))
  else Return None.

(** [deserialize_poll_vote_create_event] *)
Definition deserialize_poll_vote_create_event (shard : Shard)
    (payload : JSONObject) : result Event :=
  user_id <- snowflake_at payload "user_id" ;;
  channel_id <- snowflake_at payload "channel_id" ;;
  message_id <- snowflake_at payload "message_id" ;;
  guild_id <- optional_guild_id payload ;;
  answer_id <- getitem payload "answer_id" ;;
  Return (PollVoteCreateEvent shard user_id channel_id message_id guild_id answer_id).

(** [deserialize_poll_vote_delete_event] *)
Definition deserialize_poll_vote_delete_event (shard : Shard)
    (payload : JSONObject) : result Event :=
  user_id <- snowflake_at payload "user_id" ;;
  channel_id <- snowflake_at payload "channel_id" ;;
  message_id <- snowflake_at payload "message_id" ;;
  guild_id <- optional_guild_id payload ;;
  answer_id <- getitem payload "answer_id" ;;
  Return (PollVoteDeleteEvent shard user_id channel_id message_id guild_id answer_id).

(** [user_payload.get(key, undefined.UNDEFINED)] *)
Definition get_or_undefined (d : JSONObject) (key : string) : UndefinedOr json :=
  match d !! key with
  | Some v => Defined v
  | None => UNDEFINED
  end.

(** The partial user of a presence update, built from a user payload with
    more than one entry. *)
Definition partial_user_of (user_payload : json) : result PartialUser :=
  d <- as_dict user_payload ;;
  let discriminator := get_or_undefined d "discriminator" in
  flags <-
    (if contains d "public_flags"
     then (raw <- getitem d "public_flags" ;;
           f <- UserFlag_of app raw ;; Return (Defined f))
     else Return UNDEFINED) ;;
  accent_color <-
    (if contains d "accent_color"
     then (raw_accent_color <- getitem d "accent_color" ;;
           if negb (is_None raw_accent_color)
           then (c <- Color_of app raw_accent_color ;; Return (Defined (Some c)))
           else Return (Defined None))
     else Return UNDEFINED) ;;
  id <- snowflake_at d "id" ;;
  Return
    {| id := id;
       discriminator := discriminator;
       username := get_or_undefined d "username";
       global_name := get_or_undefined d "global_name";
       avatar_decoration := Defined None;
       avatar_hash := get_or_undefined d "avatar";
       banner_hash := get_or_undefined d "banner";
       accent_color := accent_color;
       is_bot := get_or_undefined d "bot";
       is_system := get_or_undefined d "system";
       flags := flags |}.

(** [deserialize_presence_update_event] *)
Definition deserialize_presence_update_event (shard : Shard)
    (payload : JSONObject) (old_presence : option MemberPresence) : result Event :=
  presence <- deserialize_member_presence app payload ;;
  user_payload <- getitem payload "user" ;;
  n <- len user_payload ;;
  user <-
    (if 1 <? n
     then (u <- partial_user_of user_payload ;; Return (Some u))
     else Return None) ;;
  Return (PresenceUpdateEvent shard presence user old_presence).

(** The decode operations that pick between a guild and a direct-message
    variant, or are listed with them; [old_*] arguments take their default
    [None]. *)
Inductive Operation : Type :=
| MessageCreate
| MessageUpdate
| MessageDelete
| ChannelPinsUpdate
| TypingStart
| ReactionAdd
| ReactionRemove
| ReactionRemoveAll
| ReactionRemoveEmoji
| PollVoteAdd
| PollVoteRemove.

Definition decode (op : Operation) (shard : Shard) (payload : JSONObject)
  : result Event :=
  match op with
  | MessageCreate => deserialize_message_create_event shard payload
  | MessageUpdate => deserialize_message_update_event shard payload None
  | MessageDelete => deserialize_message_delete_event shard payload None
  | ChannelPinsUpdate => deserialize_channel_pins_update_event shard payload
  | TypingStart => deserialize_typing_start_event shard payload
  | ReactionAdd => deserialize_message_reaction_add_event shard payload
  | ReactionRemove => deserialize_message_reaction_remove_event shard payload
  | ReactionRemoveAll => deserialize_message_reaction_remove_all_event shard payload
  | ReactionRemoveEmoji => deserialize_message_reaction_remove_emoji_event shard payload
  | PollVoteAdd => deserialize_poll_vote_create_event shard payload
  | PollVoteRemove => deserialize_poll_vote_delete_event shard payload
  end.

(** Which family member an event is: the [Guild...] class, the [DM...]
    class, or a class that has no such split. *)
Inductive Scope : Type := Guild | DM.

Definition scope (e : Event) : option Scope :=
  match e with
  | GuildMessageCreateEvent _ _
  | GuildMessageUpdateEvent _ _ _
  | GuildMessageDeleteEvent _ _ _ _ _
  | GuildPinsUpdateEvent _ _ _ _
  | GuildTypingEvent _ _ _ _ _
  | GuildReactionAddEvent _ _ _ _ _ _ _
  | GuildReactionDeleteEvent _ _ _ _ _ _ _
  | GuildReactionDeleteAllEvent _ _ _ _
  | GuildReactionDeleteEmojiEvent _ _ _ _ _ _ => Some Guild
  | DMMessageCreateEvent _ _
  | DMMessageUpdateEvent _ _ _
  | DMMessageDeleteEvent _ _ _ _
  | DMPinsUpdateEvent _ _ _
  | DMTypingEvent _ _ _ _
  | DMReactionAddEvent _ _ _ _ _ _ _
  | DMReactionDeleteEvent _ _ _ _ _ _
  | DMReactionDeleteAllEvent _ _ _
  | DMReactionDeleteEmojiEvent _ _ _ _ _ => Some DM
  | PollVoteCreateEvent _ _ _ _ _ _
  | PollVoteDeleteEvent _ _ _ _ _ _
  | PresenceUpdateEvent _ _ _ _ => None
  end.

(** Reading [event.guild_id].  The message events assert that the id of
    their message is a snowflake; the reaction-add event reads it off its
    member; the other guild events and the poll events hold it as a field;
    the direct-message and presence events have no such attribute. *)
Definition guild_id (e : Event) : result (option Snowflake) :=
  match e with
  | GuildMessageCreateEvent _ message =>
    match message_guild_id app message with
    | Some g => Return (Some g)
    | None => Raise AssertionError
    end
  | GuildMessageUpdateEvent _ message _ =>
    match partial_message_guild_id app message with
    | Some g => Return (Some g)
    | None => Raise AssertionError
    end
  | GuildMessageDeleteEvent _ _ _ g _ => Return (Some g)
  | GuildPinsUpdateEvent _ _ g _ => Return (Some g)
  | GuildTypingEvent _ _ g _ _ => Return (Some g)
  | GuildReactionAddEvent _ member _ _ _ _ _ => Return (Some (member_guild_id app member))
  | GuildReactionDeleteEvent _ _ g _ _ _ _ => Return (Some g)
  | GuildReactionDeleteAllEvent _ g _ _ => Return (Some g)
  | GuildReactionDeleteEmojiEvent _ _ _ g _ _ => Return (Some g)
  | PollVoteCreateEvent _ _ _ _ g _ => Return g
  | PollVoteDeleteEvent _ _ _ _ g _ => Return g
  | _ => Raise AttributeError
  end.

(** The [emoji_id] and [emoji_name] of a reaction event. *)
Definition emoji (e : Event) : option (option Snowflake * EmojiName) :=
  match e with
  | GuildReactionAddEvent _ _ _ _ i n _
  | DMReactionAddEvent _ _ _ _ i n _
  | GuildReactionDeleteEvent _ _ _ _ _ i n
  | DMReactionDeleteEvent _ _ _ _ i n
  | GuildReactionDeleteEmojiEvent _ i n _ _ _
  | DMReactionDeleteEmojiEvent _ i n _ _ => Some (i, n)
  | _ => None
  end.

(** The scope of the event an operation decodes from a payload. *)
Definition decoded_scope (op : Operation) (shard : Shard) (payload : JSONObject)
  : result (option Scope) :=
  e <- decode op shard payload ;;
  Return (scope e).

(** The operations that test the key [guild_id]. *)
Definition tests_guild_id (op : Operation) : bool :=
  match op with
  | MessageDelete | ChannelPinsUpdate | TypingStart
  | ReactionRemove | ReactionRemoveAll | ReactionRemoveEmoji => true
  | _ => false
  end.

(** A field read with [user_payload.get(key, undefined.UNDEFINED)]. *)
Definition raw_field (d : JSONObject) (key : string) (field : UndefinedOr json)
  : Prop :=
  field = match d !! key with Some v => Defined v | None => UNDEFINED end.

(** The partial user of a presence update against its payload: the fields
    read from the payload hold its value, or [UNDEFINED] when the key is
    missing; [avatar_decoration] is [None] whatever the payload holds. *)
Definition partial_user_spec (d : JSONObject)
    (u : PartialUser) : Prop :=
  (exists raw, d !! "id" = Some raw /\ Snowflake_of app raw = Return (id u)) /\
  raw_field d "discriminator" (discriminator u) /\
  raw_field d "username" (username u) /\
  raw_field d "global_name" (global_name u) /\
  raw_field d "avatar" (avatar_hash u) /\
  raw_field d "banner" (banner_hash u) /\
  raw_field d "bot" (is_bot u) /\
  raw_field d "system" (is_system u) /\
  match d !! "public_flags" with
  | None => flags u = UNDEFINED
  | Some raw => exists f, UserFlag_of app raw = Return f /\ flags u = Defined f
  end /\
  match d !! "accent_color" with
  | None => accent_color u = UNDEFINED
  | Some JNull => accent_color u = Defined None
  | Some raw =>
    exists c, Color_of app raw = Return c /\ accent_color u = Defined (Some c)
  end /\
  avatar_decoration u = Defined None.

End Collaborators.

(** The entity types are read off the application and the event. *)
Arguments GuildMessageCreateEvent {Shard Member Message PartialMessage MemberPresence UserFlag Color AvatarDecoration}.
Arguments DMMessageCreateEvent {Shard Member Message PartialMessage MemberPresence UserFlag Color AvatarDecoration}.
Arguments GuildMessageUpdateEvent {Shard Member Message PartialMessage MemberPresence UserFlag Color AvatarDecoration}.
Arguments DMMessageUpdateEvent {Shard Member Message PartialMessage MemberPresence UserFlag Color AvatarDecoration}.
Arguments GuildMessageDeleteEvent {Shard Member Message PartialMessage MemberPresence UserFlag Color AvatarDecoration}.
Arguments DMMessageDeleteEvent {Shard Member Message PartialMessage MemberPresence UserFlag Color AvatarDecoration}.
Arguments GuildPinsUpdateEvent {Shard Member Message PartialMessage MemberPresence UserFlag Color AvatarDecoration}.
Arguments DMPinsUpdateEvent {Shard Member Message PartialMessage MemberPresence UserFlag Color AvatarDecoration}.
Arguments GuildTypingEvent {Shard Member Message PartialMessage MemberPresence UserFlag Color AvatarDecoration}.
Arguments DMTypingEvent {Shard Member Message PartialMessage MemberPresence UserFlag Color AvatarDecoration}.
Arguments GuildReactionAddEvent {Shard Member Message PartialMessage MemberPresence UserFlag Color AvatarDecoration}.
Arguments DMReactionAddEvent {Shard Member Message PartialMessage MemberPresence UserFlag Color AvatarDecoration}.
Arguments GuildReactionDeleteEvent {Shard Member Message PartialMessage MemberPresence UserFlag Color AvatarDecoration}.
Arguments DMReactionDeleteEvent {Shard Member Message PartialMessage MemberPresence UserFlag Color AvatarDecoration}.
Arguments GuildReactionDeleteAllEvent {Shard Member Message PartialMessage MemberPresence UserFlag Color AvatarDecoration}.
Arguments DMReactionDeleteAllEvent {Shard Member Message PartialMessage MemberPresence UserFlag Color AvatarDecoration}.
Arguments GuildReactionDeleteEmojiEvent {Shard Member Message PartialMessage MemberPresence UserFlag Color AvatarDecoration}.
Arguments DMReactionDeleteEmojiEvent {Shard Member Message PartialMessage MemberPresence UserFlag Color AvatarDecoration}.
Arguments PollVoteCreateEvent {Shard Member Message PartialMessage MemberPresence UserFlag Color AvatarDecoration}.
Arguments PollVoteDeleteEvent {Shard Member Message PartialMessage MemberPresence UserFlag Color AvatarDecoration}.
Arguments PresenceUpdateEvent {Shard Member Message PartialMessage MemberPresence UserFlag Color AvatarDecoration}.
Arguments deserialize_channel_pins_update_event {Shard Member Message PartialMessage MemberPresence UserFlag Color AvatarDecoration}.
Arguments deserialize_typing_start_event {Shard Member Message PartialMessage MemberPresence UserFlag Color AvatarDecoration}.
Arguments deserialize_message_create_event {Shard Member Message PartialMessage MemberPresence UserFlag Color AvatarDecoration}.
Arguments deserialize_message_update_event {Shard Member Message PartialMessage MemberPresence UserFlag Color AvatarDecoration}.
Arguments deserialize_message_delete_event {Shard Member Message PartialMessage MemberPresence UserFlag Color AvatarDecoration}.
Arguments deserialize_message_reaction_add_event {Shard Member Message PartialMessage MemberPresence UserFlag Color AvatarDecoration}.
Arguments deserialize_message_reaction_remove_event {Shard Member Message PartialMessage MemberPresence UserFlag Color AvatarDecoration}.
Arguments deserialize_message_reaction_remove_all_event {Shard Member Message PartialMessage MemberPresence UserFlag Color AvatarDecoration}.
Arguments deserialize_message_reaction_remove_emoji_event {Shard Member Message PartialMessage MemberPresence UserFlag Color AvatarDecoration}.
Arguments deserialize_poll_vote_create_event {Shard Member Message PartialMessage MemberPresence UserFlag Color AvatarDecoration}.
Arguments deserialize_poll_vote_delete_event {Shard Member Message PartialMessage MemberPresence UserFlag Color AvatarDecoration}.
Arguments deserialize_presence_update_event {Shard Member Message PartialMessage MemberPresence UserFlag Color AvatarDecoration}.
Arguments decode {Shard Member Message PartialMessage MemberPresence UserFlag Color AvatarDecoration}.
Arguments partial_user_of {Member Message PartialMessage MemberPresence UserFlag Color AvatarDecoration}.
Arguments mkPartialUser {UserFlag Color AvatarDecoration}.

End EventFactory.

(** ** hikari/internal/aio.py *)

Module Aio.
Import Json.

(** The three states of an [asyncio.Future]; a finished one holds a result
    or an exception. *)
Inductive FutureState : Type :=
| PENDING
| CANCELLED
| FINISHED (r : result json).

(** What a pending operation does once its cancellation was requested and
    it is awaited: it ends cancelled; or it catches the request and then
    returns or raises; or it never ends. *)
Inductive Reaction : Type :=
| Acknowledges
| Completes (r : result json)
| NeverEnds.

Record Future : Type := mkFuture {
  state : FutureState;
  must_cancel : bool;
  reaction : Reaction
}.

(** [f.done()] *)
Definition done (f : Future) : bool :=
  match state f with
  | PENDING => false
  | _ => true
  end.

(** [f.cancelled()] *)
Definition cancelled (f : Future) : bool :=
  match state f with
  | CANCELLED => true
  | _ => false
  end.

(** [f.cancel()]: a request, and only for an operation that is not done. *)
Definition cancel (f : Future) : Future :=
  if done f then f else mkFuture (state f) true (reaction f).

(** The end of an awaited call: it returns or raises, or the caller stays
    suspended for ever. *)
Inductive Outcome : Type :=
| Finished (r : result json)
| Forever.

(** [await f], with the future as the await leaves it.  Operations make no
    progress of their own here: a pending one ends only by reacting to a
    cancellation request. *)
Definition await (f : Future) : Outcome * Future :=
  match state f with
  | FINISHED r => (Finished r, f)
  | CANCELLED => (Finished (Raise (CancelledError None)), f)
  | PENDING =>
    if must_cancel f then
      match reaction f with
      | Acknowledges =>
        (Finished (Raise (CancelledError None)), mkFuture CANCELLED true (reaction f))
      | Completes r => (Finished r, mkFuture (FINISHED r) true (reaction f))
      | NeverEnds => (Forever, f)
      end
    else (Forever, f)
  end.

(** How a block of statements ends. *)
Inductive Flow : Type :=
| Normal
| Raises (e : exn)
| Suspended.

(** The loop of both [finally] blocks:
[[
for f in fs:
    if not f.done() and not f.cancelled():
        f.cancel()
        try:
            await f
        except asyncio.CancelledError:
            pass
]] *)
Fixpoint cancel_pending (fs : list Future) : list Future * Flow :=
  match fs with
  | [] => ([], Normal)
  | f :: rest =>
    if negb (done f) && negb (cancelled f) then
      match await (cancel f) with
      | (Forever, f') => (f' :: rest, Suspended)
      | (Finished (Raise (CancelledError _)), f')
      | (Finished (Return _), f') =>
        let '(rest', flow) := cancel_pending rest in (f' :: rest', flow)
      | (Finished (Raise e), f') => (f' :: rest, Raises e)
      end
    else
      let '(rest', flow) := cancel_pending rest in (f :: rest', flow)
  end.

(** [first_completed] of the awaitables [aws].  [aws] are the operations as they
    stand when [await next(iterator)] ends and [first] is how it ends: with
    the result or the exception of the operation that completed first, with
    [TimeoutError] on the timeout, with [CancelledError] when the caller is
    cancelled.  The awaited value is dropped and the function has no
    [return] statement. *)
Definition first_completed (aws : list Future) (first : Outcome)
  : list Future * Outcome :=
  match first with
  | Forever => (aws, Forever)
  | Finished r =>
    let body :=
      match r with
      | Raise (CancelledError _) =>
        Raise (CancelledError (Some "first_completed gatherer cancelled"%string))
      | Raise (TimeoutError _) =>
        Raise (TimeoutError (Some "first_completed gatherer timed out"%string))
      | Raise e => Raise e
      | Return _ => Return JNull
      end in
    match cancel_pending aws with
    | (fs, Normal) => (fs, Finished body)
    | (fs, Raises e) => (fs, Finished (Raise e))
    | (fs, Suspended) => (fs, Forever)
    end
  end.

(** [all_of] of the awaitables [aws].  [gatherer] is the future of
    [asyncio.gather] over them and [gathered] is how
    [await asyncio.wait_for(gatherer, timeout=timeout)] ends. *)
Definition all_of (aws : list Future) (gatherer : Future) (gathered : Outcome)
  : list Future * Future * Outcome :=
  match gathered with
  | Forever => (aws, gatherer, Forever)
  | Finished r =>
    let body :=
      match r with
      | Raise (TimeoutError _) =>
        Raise (TimeoutError (Some "all_of gatherer timed out"%string))
      | Raise (CancelledError _) =>
        Raise (CancelledError (Some "all_of gatherer cancelled"%string))
      | other => other
      end in
    match cancel_pending aws with
    | (fs, Raises e) => (fs, gatherer, Finished (Raise e))
    | (fs, Suspended) => (fs, gatherer, Forever)
    | (fs, Normal) =>
      match await (cancel gatherer) with
      | (Forever, g) => (fs, g, Forever)
      | (Finished (Raise (CancelledError _)), g)
      | (Finished (Return _), g) => (fs, g, Finished body)
      | (Finished (Raise e), g) => (fs, g, Finished (Raise e))
      end
    end
  end.

(** Every operation has reached a terminal state. *)
Definition all_done (fs : list Future) : bool := forallb done fs.

(** A pending operation that, once cancelled, raises something else than
    [CancelledError]. *)
Definition raises_on_cancel (f : Future) : bool :=
  match state f, reaction f with
  | PENDING, Completes (Raise (CancelledError _)) => false
  | PENDING, Completes (Raise _) => true
  | _, _ => false
  end.

End Aio.

(** ** A small stand-in for the collaborators, to run the factory on
    concrete payloads *)

Module Sample.
Import Json EventFactory.

Fixpoint digits_value (s : string) (acc : Z) : option Z :=
  match s with
  | EmptyString => Some acc
  | String c rest =>
    let n := Z.of_nat (Ascii.nat_of_ascii c) in
    if (48 <=? n) && (n <=? 57) then digits_value rest (10 * acc + (n - 48))
    else None
  end.

(** [Snowflake(x)] is [int(x)]: an int as it is, a string of decimal
    digits by its value, [None] not at all. *)
Definition Snowflake_of (j : json) : result Snowflake :=
  match j with
  | JInt z => Return z
  | JStr EmptyString => Raise ValueError
  | JStr s =>
    match digits_value s 0 with
    | Some z => Return z
    | None => Raise ValueError
    end
  | _ => Raise TypeError
  end.

Definition int_of (j : json) : result Z :=
  match j with
  | JInt z => Return z
  | _ => Raise TypeError
  end.

Definition Color_of (j : json) : result Z :=
  z <- int_of j ;;
  if (0 <=? z) && (z <=? 16777215) then Return z else Raise ValueError.

Definition iso8601 (j : json) : result Time.datetime :=
  match j with
  | JStr s =>
    if String.eqb s "1970-01-01T00:00:00+00:00"
    then Return (Time.mk_datetime 0)
    else Raise ValueError
  | _ => Raise TypeError
  end.

Record Member : Type := mkMember {
  member_payload : json;
  member_guild : Snowflake
}.

Record Message : Type := mkMessage {
  message_payload : JSONObject;
  message_guild : option Snowflake
}.

Definition deserialize_message (payload : JSONObject) : result Message :=
  g <- (if contains payload "guild_id"
        then (raw <- getitem payload "guild_id" ;;
              s <- Snowflake_of raw ;; Return (Some s))
        else Return None) ;;
  Return (mkMessage payload g).

Definition AvatarDecoration : Type := unit.

Definition app : App Member Message Message JSONObject Z Z :=
  {| EventFactory.Snowflake_of := Snowflake_of;
     UserFlag_of := int_of;
     EventFactory.Color_of := Color_of;
     iso8601_datetime_string_to_datetime := iso8601;
     deserialize_member := fun p g => Return (mkMember p g);
     EventFactory.deserialize_message := deserialize_message;
     deserialize_partial_message := deserialize_message;
     deserialize_member_presence := fun p => Return p;
     message_guild_id := message_guild;
     partial_message_guild_id := message_guild;
     member_guild_id := member_guild |}.

Definition shard : nat := 0%nat.

(** [{"id": null, "name": "x"}] and [{"id": "7", "name": "x"}] *)
Definition null_id_fragment : JSONObject :=
  <["id" := JNull]> (<["name" := JStr "x"]> ∅).
Definition custom_fragment : JSONObject :=
  <["id" := JStr "7"]> (<["name" := JStr "x"]> ∅).
Definition unicode_emoji : json := JObj null_id_fragment.
Definition custom_emoji : json := JObj custom_fragment.

(** [{"channel_id": "1", "message_id": "2", "user_id": "3", "guild_id": "4",
    "emoji": {"id": null, "name": "x"}}]: a reaction in a guild that
    comes without a [member]. *)
Definition reaction_without_member : JSONObject :=
  <["channel_id" := JStr "1"]> (<["message_id" := JStr "2"]>
  (<["user_id" := JStr "3"]> (<["guild_id" := JStr "4"]>
  (<["emoji" := unicode_emoji]> ∅)))).

(** The same reaction without [guild_id]. *)
Definition reaction_in_dm : JSONObject :=
  <["channel_id" := JStr "1"]> (<["message_id" := JStr "2"]>
  (<["user_id" := JStr "3"]> (<["emoji" := unicode_emoji]> ∅))).

(** A reaction with a custom emoji, in a guild. *)
Definition reaction_custom : JSONObject :=
  <["channel_id" := JStr "1"]> (<["message_id" := JStr "2"]>
  (<["user_id" := JStr "3"]> (<["guild_id" := JStr "4"]>
  (<["emoji" := custom_emoji]> ∅)))).

(** [{"user": {"id": "5"}}] and [{"user": {"id": "5", "username": "x"}}] *)
Definition presence_id_only : JSONObject :=
  <["user" := JObj (<["id" := JStr "5"]> ∅)]> ∅.
Definition presence_with_username : JSONObject :=
  <["user" := JObj (<["id" := JStr "5"]> (<["username" := JStr "x"]> ∅))]> ∅.

End Sample.

(** ** Operations to run the gatherers on *)

Module AioSample.
Import Json Aio.

(** An operation that failed at once. *)
Definition failed : Future :=
  mkFuture (FINISHED (Raise (UserError 1))) false Acknowledges.

(** An operation that succeeded with 42. *)
Definition succeeded : Future :=
  mkFuture (FINISHED (Return (JInt 42))) false Acknowledges.

(** A running operation whose cleanup raises when it is cancelled. *)
Definition stubborn : Future :=
  mkFuture PENDING false (Completes (Raise (UserError 2))).

(** A running operation that ends cancelled when asked to. *)
Definition sleeper : Future :=
  mkFuture PENDING false Acknowledges.

(** The gatherer of [all_of] once a child has failed. *)
Definition failed_gatherer : Future :=
  mkFuture (FINISHED (Raise (UserError 1))) false Acknowledges.

End AioSample.

(** ** hikari/embeds.py: editing fields, resources, length *)

Module EmbedsMore.
Import Embeds.

Set Implicit Arguments.

(** What the setters take for an image or an icon: one of the embed's own
    resource classes, or anything else [files.ensure_resource] accepts. *)
Inductive Resourceish (Other : Type) : Type :=
| OfResource (r : EmbedResourceWithProxy)
| OfImage (i : EmbedImage)
| OfVideo (v : EmbedVideo)
| OfOther (x : Other).

Arguments OfResource {Other} r.
Arguments OfImage {Other} i.
Arguments OfVideo {Other} v.

Section WithCollaborators.

Variables Color datetime Other : Type.

(** [files.ensure_resource] lives outside embeds.py. *)
Variable ensure_resource : Other -> result string.

Abbreviation EmbedT := (Embed Color datetime).

(** [_ensure_embed_resource]: an [EmbedResource] gives the resource it
    wraps. *)
Definition _ensure_embed_resource (resource : Resourceish Other) : result string :=
  match resource with
  | OfResource r => Return (Embeds.resource r)
  | OfImage i => Return (Embeds.resource (image_resource i))
  | OfVideo v => Return (Embeds.resource (video_resource v))
  | OfOther x => ensure_resource x
  end.

(** [EmbedResourceWithProxy(resource=_ensure_embed_resource(icon))
    if icon is not None else None] *)
Definition real_icon (icon : option (Resourceish Other))
  : result (option EmbedResourceWithProxy) :=
  match icon with
  | Some i => (r <- _ensure_embed_resource i ;; Return (Some (mkEmbedResource r None)))
  | None => Return None
  end.

Definition with_author (self : EmbedT) (a : option EmbedAuthor) : EmbedT :=
  mkEmbed a (_color self) (_description self) (_fields self) (_footer self)
          (_image self) (_provider self) (_thumbnail self) (_timestamp self)
          (_title self) (_url self) (_video self).

Definition with_footer (self : EmbedT) (f : option EmbedFooter) : EmbedT :=
  mkEmbed (_author self) (_color self) (_description self) (_fields self) f
          (_image self) (_provider self) (_thumbnail self) (_timestamp self)
          (_title self) (_url self) (_video self).

Definition with_image (self : EmbedT) (i : option EmbedImage) : EmbedT :=
  mkEmbed (_author self) (_color self) (_description self) (_fields self)
          (_footer self) i (_provider self) (_thumbnail self) (_timestamp self)
          (_title self) (_url self) (_video self).

Definition with_thumbnail (self : EmbedT) (i : option EmbedImage) : EmbedT :=
  mkEmbed (_author self) (_color self) (_description self) (_fields self)
          (_footer self) (_image self) (_provider self) i (_timestamp self)
          (_title self) (_url self) (_video self).

(** [Embed.set_author] *)
Definition set_author (name url : option string)
    (icon : option (Resourceish Other)) (self : EmbedT) : result EmbedT :=
  match name, url, icon with
  | None, None, None => Return (with_author self None)
  | _, _, _ =>
    i <- real_icon icon ;;
    Return (with_author self (Some (mkEmbedAuthor name url i)))
  end.

(** [Embed.set_footer] *)
Definition set_footer (text : option string)
    (icon : option (Resourceish Other)) (self : EmbedT) : result EmbedT :=
  match text with
  | None =>
    match icon with
    | Some _ => Raise TypeError
    | None => Return (with_footer self None)
    end
  | Some t =>
    i <- real_icon icon ;;
    Return (with_footer self (Some (mkEmbedFooter (Some t) i)))
  end.

(** [EmbedImage(resource=_ensure_embed_resource(image))]: no proxy, no
    size. *)
Definition new_image (image : Resourceish Other) : result EmbedImage :=
  r <- _ensure_embed_resource image ;;
  Return (mkEmbedImage (mkEmbedResource r None) None None).

(** [Embed.set_image] *)
Definition set_image (image : option (Resourceish Other)) (self : EmbedT)
  : result EmbedT :=
  match image with
  | Some i => (img <- new_image i ;; Return (with_image self (Some img)))
  | None => Return (with_image self None)
  end.

(** [Embed.set_thumbnail] *)
Definition set_thumbnail (image : option (Resourceish Other)) (self : EmbedT)
  : result EmbedT :=
  match image with
  | Some i => (img <- new_image i ;; Return (with_thumbnail self (Some img)))
  | None => Return (with_thumbnail self None)
  end.

(** [l[index]] on a Python list, as the position it reads. *)
Definition list_position {A : Type} (l : list A) (index : Z) : result nat :=
  let n := Z.of_nat (length l) in
  let i := if index <? 0 then index + n else index in
  if (i <? 0) || (n <=? i) then Raise IndexError else Return (Z.to_nat i).

(** The assignments of [edit_field] to one field. *)
Definition edited (name value : UndefinedOr string) (inline : UndefinedOr bool)
    (field : EmbedField) : EmbedField :=
  mkEmbedField
    (match name with Defined n => n | UNDEFINED => Embeds.name field end)
    (match value with Defined v => v | UNDEFINED => Embeds.value field end)
    (match inline with Defined b => b | UNDEFINED => _inline field end).

(** [Embed.edit_field] *)
Definition edit_field (index : Z) (name value : UndefinedOr string)
    (inline : UndefinedOr bool) (self : EmbedT) : result EmbedT :=
  if negb (truthy (_fields self)) then Raise IndexError
  else
    match _fields self with
    | None => Raise IndexError
    | Some l =>
      i <- list_position l index ;;
      match l !! i with
      | None => Raise IndexError
      | Some field =>
        Return (set_fields self (Some (<[i := edited name value inline field]> l)))
      end
    end.

(** [len(s or "")] *)
Definition len_or_empty (s : option string) : Z :=
  match s with
  | Some s => Z.of_nat (String.length s)
  | None => 0
  end.

Definition field_length (f : EmbedField) : Z :=
  Z.of_nat (String.length (Embeds.name f)) + Z.of_nat (String.length (Embeds.value f)).

(** [Embed.total_length] *)
Definition total_length (self : EmbedT) : Z :=
  let total := len_or_empty (_title self) + len_or_empty (_description self) in
  let total :=
    if truthy (_fields self)
    then foldl (fun t f => t + field_length f) total
               (match _fields self with Some l => l | None => [] end)
    else total in
  let total :=
    match _footer self with
    | Some footer =>
      match footer_text footer with
      | Some (String c s) => total + Z.of_nat (String.length (String c s))
      | _ => total
      end
    | None => total
    end in
  match _author self with
  | Some author =>
    match author_name author with
    | Some (String c s) => total + Z.of_nat (String.length (String c s))
    | _ => total
    end
  | None => total
  end.

(** The parts [total_length] adds up. *)
Definition fields_length (l : list EmbedField) : Z :=
  foldr (fun f t => field_length f + t) 0 l.

Definition footer_length (self : EmbedT) : Z :=
  match _footer self with
  | Some footer => len_or_empty (footer_text footer)
  | None => 0
  end.

Definition author_length (self : EmbedT) : Z :=
  match _author self with
  | Some author => len_or_empty (author_name author)
  | None => 0
  end.

End WithCollaborators.

End EmbedsMore.

(** ** hikari/internal/time.py: time spans and the ISO-8601 fallback *)

Module TimeMore.
Import Time.

(** [Intervalish]: a number of seconds, or a [datetime.timedelta]. *)
Inductive Intervalish : Type :=
| Seconds (n : pynum)
| Delta (d : timedelta).

(** [max(0, value)]: [value] when [value > 0], else the int [0]. *)
Definition max_zero (value : pynum) : pynum :=
  if gt_zero value then value else PyInt 0.

(** [int(x)] *)
Definition to_int (x : pynum) : result Z :=
  match x with
  | PyInt z => Return z
  | PyFloat f => float_to_int f
  end.

(** [timespan_to_int]; [timedelta.total_seconds()] is the true division of
    the microseconds by [10**6]. *)
Definition timespan_to_int (value : Intervalish) : result Z :=
  value <-
    match value with
    | Delta d => (s <- int_truediv d us_per_second ;; Return (PyFloat s))
    | Seconds n => Return n
    end ;;
  to_int (max_zero value).

(** The last character of a string, and the string without it
    ([s[:-1]]). *)
Fixpoint last_char (s : string) : option Ascii.ascii :=
  match s with
  | EmptyString => None
  | String c rest =>
    match rest with
    | EmptyString => Some c
    | String _ _ => last_char rest
    end
  end.

Fixpoint drop_last (s : string) : string :=
  match s with
  | EmptyString => EmptyString
  | String c rest =>
    match rest with
    | EmptyString => EmptyString
    | String _ _ => String c (drop_last rest)
    end
  end.

(** [datetime_str.endswith(("z", "Z"))] *)
Definition ends_with_zulu (s : string) : bool :=
  match last_char s with
  | Some c => String.eqb (String c EmptyString) "z" || String.eqb (String c EmptyString) "Z"
  | None => false
  end.

(** [slow_iso8601_datetime_string_to_datetime], over the standard
    library's [datetime.datetime.fromisoformat]. *)
Definition slow_iso8601_datetime_string_to_datetime
    (fromisoformat : string -> result datetime) (datetime_str : string)
  : result datetime :=
  let datetime_str :=
    if ends_with_zulu datetime_str
    then (drop_last datetime_str ++ "+00:00")%string
    else datetime_str in
  fromisoformat datetime_str.

End TimeMore.

(** ** hikari/internal/aio.py: tearing a loop down *)

Module AioMore.
Import Json Aio.

(** An operation that ends once it is cancelled and awaited. *)
Definition ends_when_cancelled (f : Future) : bool :=
  match state f, reaction f with
  | PENDING, NeverEnds => false
  | _, _ => true
  end.

(** An operation that ends, and with nothing else than a result or
    [CancelledError]. *)
Definition well_behaved (f : Future) : bool :=
  ends_when_cancelled f && negb (raises_on_cancel f).










End AioMore.

(** ** hikari/events/voice_events.py *)

Module VoiceEvents.
Import Json.

Set Implicit Arguments.

Section Entities.

Variable Shard : Type.

(** What an f-string makes of a value that is not a string. *)
Variable format : json -> string.

(** [VoiceServerUpdateEvent]; the back reference [app] is left out. *)
Record VoiceServerUpdateEvent : Type := mkVoiceServerUpdateEvent {
  shard : Shard;
  guild_id : Z;
  token : json;
  raw_endpoint : json
}.

(** [VoiceServerUpdateEvent.endpoint] *)
Definition endpoint (self : VoiceServerUpdateEvent) : option string :=
  match raw_endpoint self with
  | JNull => None
  | JStr s => Some ("wss://" ++ s)%string
  | other => Some ("wss://" ++ format other)%string
  end.

End Entities.

End VoiceEvents.

(** ** hikari/events/message_events.py: who sent the message *)

Module MessageEvents.

Set Implicit Arguments.

(** The attributes of [messages.Message] that the properties below read. *)
Record Message (User : Type) : Type := mkMessage {
  author : User;
  webhook_id : option Z
}.

(** The same attributes of [messages.PartialMessage]. *)
Record PartialMessage (User : Type) : Type := mkPartialMessage {
  partial_author : UndefinedOr User;
  partial_webhook_id : UndefinedOr (option Z)
}.

(** [x is None] *)
Definition is_none (A : Type) (x : option A) : bool :=
  match x with
  | None => true
  | Some _ => false
  end.

Module MessageCreateEvent.

Section Properties.

(** [users.User] and its attribute [is_bot]. *)
Variable User : Type.
Variable user_is_bot : User -> bool.

(** The event is its message. *)
Variable message : Message User.

Definition is_bot : bool := user_is_bot (author message).

Definition is_human : bool :=
  negb (user_is_bot (author message)) && is_none (webhook_id message).

Definition is_webhook : bool := negb (is_none (webhook_id message)).

End Properties.

End MessageCreateEvent.

Module MessageUpdateEvent.

Section Properties.

Variable User : Type.
Variable user_is_bot : User -> bool.

Variable message : PartialMessage User.

Definition is_bot : UndefinedOr bool :=
  match partial_author message with
  | Defined author => Defined (user_is_bot author)
  | UNDEFINED => UNDEFINED
  end.

Definition is_human : UndefinedOr bool :=
  match partial_webhook_id message with
  | Defined webhook_id => Defined (is_none webhook_id)
  | UNDEFINED =>
    match partial_author message with
    | Defined author => Defined (negb (user_is_bot author))
    | UNDEFINED => UNDEFINED
    end
  end.

Definition is_webhook : UndefinedOr bool :=
  match partial_webhook_id message with
  | Defined webhook_id => Defined (negb (is_none webhook_id))
  | UNDEFINED => UNDEFINED
  end.

End Properties.

End MessageUpdateEvent.

End MessageEvents.

(** ** hikari/impl/event_factory.py: more decoders *)

Module EventFactoryMore.
Import Json EventFactory.

Set Implicit Arguments.

(** [guild_events.IntegrationDeleteEvent] as the factory builds it. *)
Module IntegrationDelete.
Record IntegrationDeleteEvent (Shard : Type) : Type := mkIntegrationDeleteEvent {
  id : Snowflake;
  shard : Shard;
  guild_id : Snowflake;
  application_id : option Snowflake
}.
End IntegrationDelete.

(** [auto_mod_events.AutoModActionExecutionEvent] as the factory builds it. *)
Module AutoMod.
Record AutoModActionExecutionEvent (Shard AutoModAction AutoModTriggerType : Type)
  : Type := mkAutoModActionExecutionEvent {
  shard : Shard;
  guild_id : Snowflake;
  action : AutoModAction;
  rule_id : Snowflake;
  rule_trigger_type : AutoModTriggerType;
  user_id : Snowflake;
  channel_id : option Snowflake;
  message_id : option Snowflake;
  alert_system_message_id : option Snowflake;
  content : json;
  matched_keyword : json;
  matched_content : json
}.
End AutoMod.

Section Collaborators.

Variables Shard Member Message PartialMessage MemberPresence : Type.
Variables UserFlag Color AvatarDecoration : Type.
Variable app : App Member Message PartialMessage MemberPresence UserFlag Color.

(** [entity_factory.deserialize_auto_mod_action] and the constructor of
    [auto_mod_models.AutoModTriggerType]. *)
Variables AutoModAction AutoModTriggerType : Type.
Variable deserialize_auto_mod_action : json -> result AutoModAction.
Variable AutoModTriggerType_of : json -> result AutoModTriggerType.

(** Reading [event.last_pin_timestamp]: the two pins events have it. *)
Definition last_pin_timestamp
    (e : Event Shard Member Message PartialMessage MemberPresence UserFlag Color
               AvatarDecoration)
  : result (option Time.datetime) :=
  match e with
  | GuildPinsUpdateEvent _ _ _ t => Return t
  | DMPinsUpdateEvent _ _ t => Return t
  | _ => Raise AttributeError
  end.

(** [deserialize_voice_server_update_event] *)
Definition deserialize_voice_server_update_event (shard : Shard)
    (payload : JSONObject) : result (VoiceEvents.VoiceServerUpdateEvent Shard) :=
  token <- getitem payload "token" ;;
  guild_id <- snowflake_at app payload "guild_id" ;;
  raw_endpoint <- getitem payload "endpoint" ;;
  Return (VoiceEvents.mkVoiceServerUpdateEvent shard guild_id token raw_endpoint).

(** [deserialize_integration_delete_event] *)
Definition deserialize_integration_delete_event (shard : Shard)
    (payload : JSONObject) : result (IntegrationDelete.IntegrationDeleteEvent Shard) :=
  application_id <-
    (let raw_application_id := get payload "application_id" in
     if negb (is_None raw_application_id)
     then (s <- Snowflake_of app raw_application_id ;; Return (Some s))
     else Return None) ;;
  id <- snowflake_at app payload "id" ;;
  guild_id <- snowflake_at app payload "guild_id" ;;
  Return (IntegrationDelete.mkIntegrationDeleteEvent id shard guild_id application_id).

(** [x or None] *)
Definition or_None (x : json) : json := if truthy x then x else JNull.

(** [deserialize_auto_mod_action_execution_event] *)
Definition deserialize_auto_mod_action_execution_event (shard : Shard)
    (payload : JSONObject)
  : result (AutoMod.AutoModActionExecutionEvent Shard AutoModAction
              AutoModTriggerType) :=
  let channel_id := get payload "channel_id" in
  let message_id := get payload "message_id" in
  let alert_message_id := get payload "alert_system_message_id" in
  guild_id <- snowflake_at app payload "guild_id" ;;
  raw_action <- getitem payload "action" ;;
  action <- deserialize_auto_mod_action raw_action ;;
  rule_id <- snowflake_at app payload "rule_id" ;;
  raw_rule_trigger_type <- getitem payload "rule_trigger_type" ;;
  rule_trigger_type <- AutoModTriggerType_of raw_rule_trigger_type ;;
  user_id <- snowflake_at app payload "user_id" ;;
  channel_id <-
    (if truthy channel_id
     then (s <- Snowflake_of app channel_id ;; Return (Some s))
     else Return None) ;;
  message_id <-
    (if truthy message_id
     then (s <- Snowflake_of app message_id ;; Return (Some s))
     else Return None) ;;
  alert_system_message_id <-
    (if negb (is_None alert_message_id)
     then (s <- Snowflake_of app alert_message_id ;; Return (Some s))
     else Return None) ;;
  let content := or_None (get payload "content") in
  matched_keyword <- getitem payload "matched_keyword" ;;
  let matched_content := or_None (get payload "matched_content") in
  Return (AutoMod.mkAutoModActionExecutionEvent shard guild_id action rule_id
            rule_trigger_type user_id channel_id message_id
            alert_system_message_id content matched_keyword matched_content).

End Collaborators.

End EventFactoryMore.

(** ** More payloads for the sample application *)

Module SampleMore.
Import Json EventFactory.

(** [{"channel_id": "1", "last_pin_timestamp": "1970-01-01T00:00:00+00:00"}] *)
Definition pins_update : JSONObject :=
  <["channel_id" := JStr "1"]>
  (<["last_pin_timestamp" := JStr "1970-01-01T00:00:00+00:00"]> ∅).

(** A reaction with a [member] and without [guild_id]. *)
Definition reaction_with_member_only : JSONObject :=
  <["member" := JObj ∅]> Sample.reaction_in_dm.

(** [{"token": "t", "guild_id": "4", "endpoint": "example.org:443"}] *)
Definition voice_server_update : JSONObject :=
  <["token" := JStr "t"]> (<["guild_id" := JStr "4"]>
  (<["endpoint" := JStr "example.org:443"]> ∅)).

(** [{"id": "9", "guild_id": "4"}] *)
Definition integration_delete : JSONObject :=
  <["id" := JStr "9"]> (<["guild_id" := JStr "4"]> ∅).

(** An auto-moderation action on a message that was blocked: the channel
    id is [0] and the content is the empty string. *)
Definition auto_mod_action_execution : JSONObject :=
  <["guild_id" := JStr "4"]> (<["action" := JObj ∅]>
  (<["rule_id" := JStr "5"]> (<["rule_trigger_type" := JInt 1]>
  (<["user_id" := JStr "3"]> (<["channel_id" := JInt 0]>
  (<["alert_system_message_id" := JStr "8"]> (<["content" := JStr ""]>
  (<["matched_keyword" := JNull]> ∅)))))))).

End SampleMore.

(** * Properties *)

(** A run that returns went through each of its calls. *)
Lemma bind_return_inv {A B : Type} (r : result A) (k : A -> result B) (b : B) :
  bind r k = Return b -> exists a, r = Return a /\ k a = Return b.
Proof. destruct r as [a|e]; simpl; [eauto | discriminate]. Qed.

(** ** Intents *)

Module IntentsFacts.
Import Intents.

Lemma land_bit (v : Z) (n : Z) :
  0 <= n -> Z.land v (Z.shiftl 1 n) = if Z.testbit v n then 2 ^ n else 0.
Proof.
  intros Hn. rewrite Z.shiftl_1_l. apply Z.bits_inj'. intros k Hk.
  rewrite Z.land_spec, Z.pow2_bits_eqb by lia.
  destruct (Z.eqb_spec n k) as [->|Hne].
  - destruct (Z.testbit v k) eqn:E.
    + rewrite Z.pow2_bits_true by lia. reflexivity.
    + rewrite Z.bits_0. reflexivity.
  - rewrite andb_false_r. destruct (Z.testbit v n).
    + rewrite Z.pow2_bits_false by lia. reflexivity.
    + rewrite Z.bits_0. reflexivity.
Qed.

Lemma ALL_PRIVILEGED_members :
  ALL_PRIVILEGED = Z.lor (Z.lor GUILD_MEMBERS GUILD_PRESENCES) MESSAGE_CONTENT.
Proof. reflexivity. Qed.

(** The privileged flags are exactly bits 1, 8 and 15. *)
Lemma is_privileged_bits (v : Intents) :
  is_privileged v = Z.testbit v 1 || Z.testbit v 8 || Z.testbit v 15.
Proof.
  unfold is_privileged, flag_bool, flag_and. rewrite ALL_PRIVILEGED_members.
  unfold GUILD_MEMBERS, GUILD_PRESENCES, MESSAGE_CONTENT.
  rewrite !Z.land_lor_distr_r, !land_bit by lia.
  destruct (Z.testbit v 1), (Z.testbit v 8), (Z.testbit v 15); reflexivity.
Qed.

(** C9: [is_privileged] holds exactly when the intersection of the value
    with [ALL_PRIVILEGED], the union of [GUILD_MEMBERS], [GUILD_PRESENCES]
    and [MESSAGE_CONTENT], is not zero. *)
Theorem is_privileged_iff_intersects (v : Intents) :
  (is_privileged v = true <-> Z.land v ALL_PRIVILEGED <> 0) /\
  ALL_PRIVILEGED = Z.lor (Z.lor GUILD_MEMBERS GUILD_PRESENCES) MESSAGE_CONTENT.
Proof.
  split; [| reflexivity].
  unfold is_privileged, flag_bool, flag_and.
  destruct (Z.eqb_spec (Z.land v ALL_PRIVILEGED) 0) as [E|E]; simpl.
  - split; [discriminate | intros H; contradiction].
  - split; [intros _; exact E | reflexivity].
Qed.

Example unprivileged_is_not : is_privileged ALL_UNPRIVILEGED = false.
Proof. reflexivity. Qed.

Example all_is_privileged : is_privileged ALL = true.
Proof. reflexivity. Qed.

End IntentsFacts.

(** ** Embeds *)

Module EmbedsFacts.
Import Embeds.

Section Facts.

Variables Colorish Color datetime : Type.
Variable Color_of : Colorish -> result Color.
Variable tzinfo_is_None : datetime -> bool.
Variable astimezone : datetime -> datetime.

Implicit Types e : Embed Color datetime.

Lemma fields_of_falsy e :
  _fields e = None \/ _fields e = Some [] -> fields e = [].
Proof. unfold fields. intros [H|H]; rewrite H; reflexivity. Qed.

Lemma init_fields title description url color colour timestamp e :
  init Color_of tzinfo_is_None astimezone title description url color colour
       timestamp = Return e ->
  _fields e = None.
Proof.
  unfold init. intros H.
  destruct color as [c|], colour as [c'|]; try discriminate;
    apply bind_return_inv in H as (x & _ & H); injection H as <-; reflexivity.
Qed.

Lemma clear_fields_fields e : _fields (clear_fields e) = None.
Proof. reflexivity. Qed.

(** [remove_field] never leaves an empty list behind. *)
Lemma remove_field_canonical i e e' :
  remove_field i e = Return e' -> _fields e' = None \/ truthy (_fields e') = true.
Proof.
  unfold remove_field. intros H.
  apply bind_return_inv in H as (fs & _ & H). injection H as <-. simpl.
  destruct (truthy fs) eqn:E; [right; exact E | left; reflexivity].
Qed.

Lemma remove_last_field i e f :
  _fields e = Some [f] -> i = 0 \/ i = -1 ->
  remove_field i e = Return (set_fields e None).
Proof.
  intros H [-> | ->]; unfold remove_field; rewrite H; reflexivity.
Qed.

(** C8: an embed that was just constructed, one after [clear_fields] and one
    whose only field was removed by [remove_field] show the same [fields],
    the empty sequence, and hold the same [_fields], so neither the
    property nor a comparison of the slots tells them apart. *)
Theorem empty_fields_regardless_of_history
    title description url color colour timestamp
    (fresh cleared one : Embed Color datetime) (f : EmbedField) (i : Z) :
  init Color_of tzinfo_is_None astimezone title description url color colour
       timestamp = Return fresh ->
  _fields one = Some [f] ->
  i = 0 \/ i = -1 ->
  exists emptied,
    remove_field i one = Return emptied /\
    fields fresh = [] /\ fields (clear_fields cleared) = [] /\ fields emptied = [] /\
    _fields fresh = None /\ _fields (clear_fields cleared) = None /\
    _fields emptied = None.
Proof.
  intros Hinit Hone Hi. exists (set_fields one None).
  apply init_fields in Hinit.
  split; [eapply remove_last_field; eassumption |].
  unfold fields. rewrite Hinit. simpl. repeat split; reflexivity.
Qed.

End Facts.

(** The three histories on a concrete embed. *)
Lemma empty_fields_regardless_of_history_witness :
  exists emptied : Embed Z Z,
    remove_field 0 (add_field (Some "a"%string) (Some "b"%string) false
                      (mkEmbed None None None None None None None None None
                               (Some "t"%string) None None))
      = Return emptied /\
    fields (mkEmbed None None None None None None None None None
                    (Some "t"%string) None None : Embed Z Z) = [] /\
    fields (clear_fields
              (add_field (Some "a"%string) None true
                 (mkEmbed None None None None None None None None None
                          None None None : Embed Z Z))) = [] /\
    fields emptied = [] /\
    _fields (mkEmbed None None None None None None None None None
                     (Some "t"%string) None None : Embed Z Z) = None /\
    _fields (clear_fields
               (add_field (Some "a"%string) None true
                  (mkEmbed None None None None None None None None None
                           None None None : Embed Z Z))) = None /\
    _fields emptied = None.
Proof.
  apply (@empty_fields_regardless_of_history Z Z Z (fun c => Return c)
           (fun _ => false) (fun t => t)
           (Some "t"%string) None None None None None
           _ _ _ (mkEmbedField "a" "b" false) 0).
  - reflexivity.
  - reflexivity.
  - left. reflexivity.
Defined.

End EmbedsFacts.

(** ** Time codec *)

Module TimeFacts.
Import Time.

(** Where [fromtimestamp] reports the overflow as [OSError] or
    [ValueError], the handler answers with the largest or the smallest
    calendar value, by the sign of the divided epoch. *)
Lemma unix_epoch_to_datetime_handled (epoch : pynum) (is_millis : bool) t e :
  truediv epoch (divisor is_millis) = Return t ->
  fromtimestamp t = Raise e ->
  caught e = true ->
  unix_epoch_to_datetime epoch is_millis =
    Return (if (0 <? t)%float then datetime_max else datetime_min).
Proof.
  intros Hdiv Hts Hc. unfold unix_epoch_to_datetime.
  rewrite Hdiv, Hts, Hc. reflexivity.
Qed.

(** Any other exception leaves the function. *)
Lemma unix_epoch_to_datetime_uncaught (epoch : pynum) (is_millis : bool) t e :
  truediv epoch (divisor is_millis) = Return t ->
  fromtimestamp t = Raise e ->
  caught e = false ->
  unix_epoch_to_datetime epoch is_millis = Raise e.
Proof.
  intros Hdiv Hts Hc. unfold unix_epoch_to_datetime.
  rewrite Hdiv, Hts, Hc. reflexivity.
Qed.

Example out_of_range_positive :
  unix_epoch_to_datetime (PyInt 996877846784536) true = Return datetime_max.
Proof. vm_compute. reflexivity. Qed.

Example out_of_range_negative :
  unix_epoch_to_datetime (PyInt (-996877846784536)) true = Return datetime_min.
Proof. vm_compute. reflexivity. Qed.

Example in_range_seconds :
  unix_epoch_to_datetime (PyInt 1700000000) false
  = Return (mk_datetime 1700000000000000).
Proof. vm_compute. reflexivity. Qed.

(** C6: an epoch of [1e22] milliseconds is beyond [time_t]; [fromtimestamp]
    reports it as [OverflowError], which the handler does not list, so the
    error leaves [unix_epoch_to_datetime]; the same epoch given as an
    [int], and the float infinity, end the same way. *)
Theorem unix_epoch_to_datetime_overflow_escapes :
  unix_epoch_to_datetime (PyFloat 1e22) true = Raise OverflowError /\
  unix_epoch_to_datetime (PyInt (10 ^ 22)) true = Raise OverflowError /\
  unix_epoch_to_datetime (PyFloat infinity) true = Raise OverflowError /\
  unix_epoch_to_datetime (PyFloat (-1e22)) true = Raise OverflowError.
Proof. repeat split; vm_compute; reflexivity. Qed.

Example round_trip_seconds : round_trip 1000 = Return 1000.
Proof. vm_compute. reflexivity. Qed.

Example round_trip_snowflake_time : round_trip 1457991678956 = Return 1457991678956.
Proof. vm_compute. reflexivity. Qed.

(** Below 5000 milliseconds the round trip loses a millisecond 48 times,
    first at 1001, 1003 and 1005. *)
Example round_trip_failures_below_5000 :
  let failures := filter (fun x => round_trip_fails x = true)
                         (Z.of_nat <$> seq 0 5000) in
  length failures = 48%nat /\ take 3 failures = [1001; 1003; 1005].
Proof. vm_compute. split; reflexivity. Qed.

(** C4: the round trip of 1001 milliseconds gives 1000.  The datetime is
    exact (one second and 1000 microseconds after the Discord epoch); on the
    way back its [timestamp()] is the double nearest to 1.001, the product
    with 1000 is the double just below 1001, and [int] truncates it. *)
Theorem round_trip_1001 :
  discord_epoch_to_datetime 1001
    = Return (mk_datetime (DISCORD_EPOCH + 1001 * 1000)) /\
  datetime_to_discord_epoch (mk_datetime (DISCORD_EPOCH + 1001 * 1000))
    = Return 1000 /\
  round_trip 1001 = Return 1000.
Proof. repeat split; vm_compute; reflexivity. Qed.

End TimeFacts.

(** ** Event factory *)

Module EventFactoryFacts.
Import Json EventFactory.

(** Peel the binds of a successful run, one call at a time. *)
Ltac peel H :=
  repeat
    (let x := fresh "x" in
     let Hx := fresh "Hx" in
     apply bind_return_inv in H as (x & Hx & H)).

Ltac finish H := injection H as <-; simpl.

Section Facts.

Variables Shard Member Message PartialMessage MemberPresence : Type.
Variables UserFlag Color AvatarDecoration : Type.
Variable app : App Member Message PartialMessage MemberPresence UserFlag Color.

Abbreviation EventT :=
  (Event Shard Member Message PartialMessage MemberPresence UserFlag Color
         AvatarDecoration).

Implicit Types (e : EventT) (payload : JSONObject) (shard : Shard).

Lemma contains_lookup (d : JSONObject) (key : string) :
  contains d key = true <-> is_Some (d !! key).
Proof. unfold contains. apply bool_decide_eq_true. Qed.

Lemma contains_false_lookup (d : JSONObject) (key : string) :
  contains d key = false <-> d !! key = None.
Proof.
  unfold contains. rewrite bool_decide_eq_false, eq_None_not_Some. tauto.
Qed.

Lemma scope_by_guild_id op shard payload e :
  tests_guild_id op = true ->
  decode app op shard payload = Return e ->
  scope e = Some (if contains payload "guild_id" then Guild else DM).
Proof.
  intros Hop H. destruct op; try discriminate Hop; clear Hop;
    cbn [decode] in H;
    unfold deserialize_message_delete_event, deserialize_channel_pins_update_event,
      deserialize_typing_start_event, deserialize_message_reaction_remove_event,
      deserialize_message_reaction_remove_all_event,
      deserialize_message_reaction_remove_emoji_event in H;
    peel H; destruct (contains payload "guild_id"); peel H; finish H; reflexivity.
Qed.

Lemma scope_message_create shard payload e :
  decode app MessageCreate shard payload = Return e ->
  exists message,
    deserialize_message app payload = Return message /\
    scope e = Some (match message_guild_id app message with Some _ => Guild | None => DM end).
Proof.
  cbn [decode]. unfold deserialize_message_create_event. intros H. peel H.
  exists x. split; [assumption |].
  destruct (message_guild_id app x); finish H; reflexivity.
Qed.

Lemma scope_message_update shard payload e :
  decode app MessageUpdate shard payload = Return e ->
  exists message,
    deserialize_partial_message app payload = Return message /\
    scope e = Some (match partial_message_guild_id app message with Some _ => Guild | None => DM end).
Proof.
  cbn [decode]. unfold deserialize_message_update_event. intros H. peel H.
  exists x. split; [assumption |].
  destruct (partial_message_guild_id app x); finish H; reflexivity.
Qed.

(** Reaction-add looks for [member], not for [guild_id]. *)
Lemma scope_reaction_add shard payload e :
  decode app ReactionAdd shard payload = Return e ->
  scope e = Some (if contains payload "member" then Guild else DM).
Proof.
  cbn [decode]. unfold deserialize_message_reaction_add_event. intros H. peel H.
  destruct (contains payload "member"); peel H; finish H; reflexivity.
Qed.

Lemma optional_guild_id_spec payload g :
  optional_guild_id app payload = Return g ->
  match payload !! "guild_id" with
  | Some raw => exists s, Snowflake_of app raw = Return s /\ g = Some s
  | None => g = None
  end.
Proof.
  unfold optional_guild_id, contains, snowflake_at, getitem. intros H.
  destruct (payload !! "guild_id") as [raw|] eqn:E.
  - rewrite bool_decide_eq_true_2 in H by eauto. simpl in H. peel H.
    injection H as <-. eauto.
  - rewrite bool_decide_eq_false_2 in H by (intros [? ?]; discriminate).
    injection H as <-. reflexivity.
Qed.

(** The poll vote events are one class each: the guild id is a field that
    may be [None]. *)
Lemma scope_poll_vote op shard payload e :
  op = PollVoteAdd \/ op = PollVoteRemove ->
  decode app op shard payload = Return e ->
  scope e = None /\
  exists g, optional_guild_id app payload = Return g /\ guild_id app e = Return g.
Proof.
  intros [-> | ->] H; cbn [decode] in H;
    unfold deserialize_poll_vote_create_event, deserialize_poll_vote_delete_event in H;
    peel H; finish H; eauto.
Qed.

(** C1, as the code has it: six operations pick the variant by the key
    [guild_id]; message-create and message-update by the guild id of the
    message the entity factory decoded; reaction-add by the key [member];
    the poll vote operations build one class whose guild id is the decoded
    id when the key is there and [None] when it is not. *)
Theorem decode_scope_by_discriminator op shard payload e :
  decode app op shard payload = Return e ->
  match op with
  | MessageCreate =>
    exists message,
      deserialize_message app payload = Return message /\
      scope e = Some (match message_guild_id app message with Some _ => Guild | None => DM end)
  | MessageUpdate =>
    exists message,
      deserialize_partial_message app payload = Return message /\
      scope e = Some (match partial_message_guild_id app message with Some _ => Guild | None => DM end)
  | ReactionAdd =>
    scope e = Some (if contains payload "member" then Guild else DM)
  | PollVoteAdd | PollVoteRemove =>
    scope e = None /\
    exists g,
      guild_id app e = Return g /\
      match payload !! "guild_id" with
      | Some raw => exists s, Snowflake_of app raw = Return s /\ g = Some s
      | None => g = None
      end
  | _ => scope e = Some (if contains payload "guild_id" then Guild else DM)
  end.
Proof.
  intros H.
  assert (Hpoll : op = PollVoteAdd \/ op = PollVoteRemove ->
                  scope e = None /\
                  exists g,
                    guild_id app e = Return g /\
                    match payload !! "guild_id" with
                    | Some raw => exists s, Snowflake_of app raw = Return s /\ g = Some s
                    | None => g = None
                    end).
  { intros Hop. destruct (scope_poll_vote _ _ _ _ Hop H) as (Hs & g & Hg & Hid).
    split; [exact Hs |]. exists g. split; [exact Hid |].
    apply optional_guild_id_spec. exact Hg. }
  destruct op.
  - exact (scope_message_create _ _ _ H).
  - exact (scope_message_update _ _ _ H).
  - refine (scope_by_guild_id _ _ _ _ _ H); reflexivity.
  - refine (scope_by_guild_id _ _ _ _ _ H); reflexivity.
  - refine (scope_by_guild_id _ _ _ _ _ H); reflexivity.
  - exact (scope_reaction_add _ _ _ H).
  - refine (scope_by_guild_id _ _ _ _ _ H); reflexivity.
  - refine (scope_by_guild_id _ _ _ _ _ H); reflexivity.
  - refine (scope_by_guild_id _ _ _ _ _ H); reflexivity.
  - apply Hpoll. left. reflexivity.
  - apply Hpoll. right. reflexivity.
Qed.

(** Split the tests a decode operation makes on the way to its event. *)
Ltac branches H :=
  peel H;
  repeat
    (match type of H with
     | (if ?c then _ else _) = Return _ => destruct c eqn:?
     | match ?x with Some _ => _ | None => _ end = Return _ => destruct x eqn:?
     end; peel H).

Ltac unfold_decoders H :=
  cbn [decode] in H;
  unfold deserialize_message_create_event, deserialize_message_update_event,
    deserialize_message_delete_event, deserialize_channel_pins_update_event,
    deserialize_typing_start_event, deserialize_message_reaction_add_event,
    deserialize_message_reaction_remove_event,
    deserialize_message_reaction_remove_all_event,
    deserialize_message_reaction_remove_emoji_event,
    deserialize_poll_vote_create_event, deserialize_poll_vote_delete_event in H.

(** C7: a guild-scoped event that a decode operation returned has a guild
    id: reading [guild_id] gives a snowflake, so the assertion in the
    accessor of the guild message events holds and the id is not [None]. *)
Theorem guild_variant_has_guild_id op shard payload e :
  decode app op shard payload = Return e ->
  scope e = Some Guild ->
  exists g, guild_id app e = Return (Some g).
Proof.
  intros H Hs.
  destruct e; try discriminate Hs; try (eexists; reflexivity); clear Hs.
  - destruct op; unfold_decoders H; branches H; try discriminate H.
    injection H as <- <-. simpl.
    match goal with E : message_guild_id _ _ = Some _ |- _ => rewrite E end.
    eauto.
  - destruct op; unfold_decoders H; branches H; try discriminate H.
    injection H as <- <-. simpl.
    match goal with E : partial_message_guild_id _ _ = Some _ |- _ => rewrite E end.
    eauto.
Qed.

(** The guild id of the events that hold it as a field is the decoded
    value of the key. *)
Lemma guild_id_of_payload op shard payload e :
  tests_guild_id op = true ->
  decode app op shard payload = Return e ->
  scope e = Some Guild ->
  exists raw g,
    payload !! "guild_id" = Some raw /\ Snowflake_of app raw = Return g /\
    guild_id app e = Return (Some g).
Proof.
  intros Hop H Hs.
  destruct op; try discriminate Hop; clear Hop; unfold_decoders H;
    peel H; destruct (contains payload "guild_id") eqn:Hc; peel H;
    injection H as <-; try discriminate Hs;
    unfold snowflake_at, getitem in *;
    destruct (payload !! "guild_id") as [raw|]; try discriminate;
    match goal with
    | E : bind (Return raw) _ = Return ?g |- _ =>
      exists raw, g; split; [reflexivity | split; [exact E | reflexivity]]
    end.
Qed.

Lemma split_reaction_emoji_spec (d : JSONObject) r :
  _split_reaction_emoji app (JObj d) = Return r ->
  exists name,
    d !! "name" = Some name /\
    match d !! "id" with
    | None | Some JNull => r = (None, UnicodeEmoji name)
    | Some raw =>
      exists s, Snowflake_of app raw = Return s /\ r = (Some s, RawName name)
    end.
Proof.
  unfold _split_reaction_emoji, as_dict, get, getitem. simpl. intros H.
  destruct (d !! "id") as [raw|]; simpl in H;
    [destruct raw; simpl in H |];
    peel H; destruct (d !! "name") as [name|]; try discriminate;
    exists name; (split; [reflexivity |]);
    repeat match goal with E : Return _ = Return _ |- _ => injection E as <- end;
    eauto.
Qed.

(** C5, as the code has it.  In reaction-remove and reaction-remove-emoji
    an [id] that is there and not null makes a custom emoji, its id decoded
    as a snowflake and its name taken as it came; an [id] that is missing
    or null makes a unicode emoji, the name wrapped as [UnicodeEmoji].
    Reaction-add tests the truth value of [id] instead: a missing, null or
    otherwise false id makes the unicode emoji, a true one that decodes to
    a snowflake other than zero the custom one. *)
Theorem reaction_emoji_by_id op shard payload e (d : JSONObject) :
  op = ReactionAdd \/ op = ReactionRemove \/ op = ReactionRemoveEmoji ->
  decode app op shard payload = Return e ->
  payload !! "emoji" = Some (JObj d) ->
  exists name,
    d !! "name" = Some name /\
    match d !! "id" with
    | None | Some JNull => emoji e = Some (None, UnicodeEmoji name)
    | Some raw =>
      match op with
      | ReactionAdd =>
        if truthy raw
        then exists s, Snowflake_of app raw = Return s /\
                       (s <> 0 -> emoji e = Some (Some s, RawName name))
        else emoji e = Some (None, UnicodeEmoji name)
      | _ =>
        exists s, Snowflake_of app raw = Return s /\
                  emoji e = Some (Some s, RawName name)
      end
    end.
Proof.
  intros [-> | [-> | ->]] H Hd; unfold_decoders H.
  - peel H. unfold getitem in Hx1. rewrite Hd in Hx1. injection Hx1 as <-.
    injection Hx2 as <-. unfold get, getitem in *.
    destruct (d !! "name") as [name|]; [| discriminate].
    injection Hx4 as <-. exists name. split; [reflexivity |].
    assert (He : emoji e =
                 Some (x3, if match x3 with Some s => s =? 0 | None => true end
                           then UnicodeEmoji name else RawName name)).
    { destruct (contains payload "member"); peel H; injection H as <-; reflexivity. }
    rewrite He. clear He H.
    destruct (d !! "id") as [raw|]; simpl in Hx3.
    + destruct (truthy raw) eqn:Ht.
      * peel Hx3. injection Hx3 as <-.
        assert (Hgoal : exists s, Snowflake_of app raw = Return s /\
                  (s <> 0 -> Some (Some x1, if x1 =? 0 then UnicodeEmoji name
                                            else RawName name)
                             = Some (Some s, RawName name))).
        { exists x1. split; [assumption |]. intros Hne.
          destruct (Z.eqb_spec x1 0); [contradiction | reflexivity]. }
        destruct raw; try discriminate Ht; exact Hgoal.
      * injection Hx3 as <-. destruct raw; reflexivity.
    + injection Hx3 as <-. reflexivity.
  - peel H. unfold getitem in Hx2. rewrite Hd in Hx2. injection Hx2 as <-.
    apply split_reaction_emoji_spec in Hx3 as (name & Hn & Hid).
    exists name. split; [assumption |].
    assert (He : emoji e = Some x3).
    { destruct x3. destruct (contains payload "guild_id"); peel H;
        injection H as <-; reflexivity. }
    rewrite He. destruct (d !! "id") as [[]|]; try (rewrite Hid; reflexivity);
      destruct Hid as (sf & Hsf & ->); eauto.
  - peel H. unfold getitem in Hx1. rewrite Hd in Hx1. injection Hx1 as <-.
    apply split_reaction_emoji_spec in Hx2 as (name & Hn & Hid).
    exists name. split; [assumption |].
    assert (He : emoji e = Some x2).
    { destruct x2. destruct (contains payload "guild_id"); peel H;
        injection H as <-; reflexivity. }
    rewrite He. destruct (d !! "id") as [[]|]; try (rewrite Hid; reflexivity);
      destruct Hid as (sf & Hsf & ->); eauto.
Qed.

Lemma partial_user_of_spec (user_payload : json)
    (u : PartialUser UserFlag Color AvatarDecoration) :
  partial_user_of app user_payload = Return u ->
  exists d, user_payload = JObj d /\ partial_user_spec app d u.
Proof.
  unfold partial_user_of. intros H. peel H.
  destruct user_payload; try discriminate. injection Hx as <-.
  exists m. split; [reflexivity |]. injection H as <-.
  unfold partial_user_spec, raw_field, get_or_undefined, snowflake_at, getitem,
    contains in *. simpl.
  repeat split.
  - destruct (m !! "id") as [raw|]; [| discriminate]. exists raw. auto.
  - destruct (m !! "public_flags") as [raw|].
    + rewrite bool_decide_eq_true_2 in Hx0 by eauto. peel Hx0.
      injection Hx0 as <-. injection Hx as <-. eauto.
    + rewrite bool_decide_eq_false_2 in Hx0 by (intros [? ?]; discriminate).
      injection Hx0 as <-. reflexivity.
  - destruct (m !! "accent_color") as [raw|].
    + rewrite bool_decide_eq_true_2 in Hx1 by eauto. peel Hx1.
      injection Hx as <-.
      destruct raw; simpl in Hx1; peel Hx1;
        repeat match goal with E : Return _ = Return _ |- _ => injection E as <- end;
        eauto.
    + rewrite bool_decide_eq_false_2 in Hx1 by (intros [? ?]; discriminate).
      injection Hx1 as <-. reflexivity.
Qed.

(** C2, as the code has it: a user payload with one entry (or none) makes
    no partial user; one with more entries makes a partial user whose
    fields read from the payload take its values and are [UNDEFINED] when
    left out, and whose [avatar_decoration] is [None]. *)
Theorem presence_partial_user shard payload old e :
  deserialize_presence_update_event app shard payload old = Return e ->
  exists presence user_payload n user,
    payload !! "user" = Some user_payload /\
    len user_payload = Return n /\
    e = PresenceUpdateEvent shard presence user old /\
    if 1 <? n
    then exists d u,
        user_payload = JObj d /\ user = Some u /\ partial_user_spec app d u
    else user = None.
Proof.
  unfold deserialize_presence_update_event. intros H. peel H.
  injection H as <-. exists x, x0, x1, x2.
  unfold getitem in Hx0. destruct (payload !! "user") as [up|]; [| discriminate].
  injection Hx0 as <-. repeat split; [assumption |].
  destruct (1 <? x1).
  - peel Hx2. injection Hx2 as <-.
    apply partial_user_of_spec in Hx0 as (d & -> & Hspec). eauto.
  - injection Hx2 as <-. reflexivity.
Qed.

End Facts.

(** The events of the sample application. *)
Abbreviation SampleEvent :=
  (Event nat Sample.Member Sample.Message Sample.Message JSONObject Z Z
         Sample.AvatarDecoration).

(** The claim as the specification words it fails on reaction-add: the
    payload has the key [guild_id] and the event is the direct-message
    variant. *)
Lemma reaction_add_with_guild_id_is_dm :
  contains Sample.reaction_without_member "guild_id" = true /\
  (decode Sample.app ReactionAdd Sample.shard Sample.reaction_without_member
     : result SampleEvent)
  = Return (DMReactionAddEvent Sample.shard 1 2 3 None (UnicodeEmoji (JStr "x")) false) /\
  decoded_scope Sample.AvatarDecoration Sample.app ReactionAdd
    Sample.shard Sample.reaction_without_member = Return (Some DM).
Proof. repeat split; vm_compute; reflexivity. Qed.

Lemma decode_scope_by_discriminator_witness :
  scope (GuildReactionDeleteEvent Sample.shard 3 4 1 2 None (UnicodeEmoji (JStr "x"))
           : SampleEvent)
  = Some (if contains Sample.reaction_without_member "guild_id" then Guild else DM).
Proof.
  apply (decode_scope_by_discriminator _ _ _ _ _ _ _ _ Sample.app ReactionRemove Sample.shard
           Sample.reaction_without_member).
  vm_compute. reflexivity.
Defined.

Lemma guild_variant_has_guild_id_witness :
  exists g,
    guild_id Sample.app
      (GuildReactionDeleteEvent Sample.shard 3 4 1 2 None (UnicodeEmoji (JStr "x"))
         : SampleEvent)
    = Return (Some g).
Proof.
  apply (guild_variant_has_guild_id _ _ _ _ _ _ _ _ Sample.app ReactionRemove
           Sample.shard Sample.reaction_without_member).
  - vm_compute. reflexivity.
  - reflexivity.
Defined.

(** On [{"id": null, "name": "x"}] the key [id] is there and the emoji is
    the unicode one. *)
Lemma null_id_is_unicode :
  contains Sample.null_id_fragment "id" = true /\
  _split_reaction_emoji Sample.app (JObj Sample.null_id_fragment)
  = Return (None, UnicodeEmoji (JStr "x")) /\
  (decode Sample.app ReactionRemove Sample.shard Sample.reaction_without_member
     : result SampleEvent)
  = Return (GuildReactionDeleteEvent Sample.shard 3 4 1 2 None
              (UnicodeEmoji (JStr "x"))).
Proof. repeat split; vm_compute; reflexivity. Qed.

Lemma reaction_emoji_by_id_witness :
  exists name,
    Sample.custom_fragment !! "name" = Some name /\
    exists s,
      Sample.Snowflake_of (JStr "7") = Return s /\
      emoji (GuildReactionDeleteEvent Sample.shard 3 4 1 2 (Some 7)
               (RawName (JStr "x")) : SampleEvent)
      = Some (Some s, RawName name).
Proof.
  apply (reaction_emoji_by_id _ _ _ _ _ _ _ _ Sample.app ReactionRemove
           Sample.shard Sample.reaction_custom _ Sample.custom_fragment).
  - right. left. reflexivity.
  - vm_compute. reflexivity.
  - vm_compute. reflexivity.
Defined.

(** With [{"id": "5", "username": "x"}] the partial user has the name and
    its [avatar_decoration], a field the payload leaves out, is [None]
    and not [UNDEFINED]. *)
Lemma presence_avatar_decoration_is_null :
  Sample.presence_with_username !! "user"
  = Some (JObj (<["id" := JStr "5"]> (<["username" := JStr "x"]> ∅))) /\
  (deserialize_presence_update_event Sample.app Sample.shard
     Sample.presence_with_username None : result SampleEvent)
  = Return
      (PresenceUpdateEvent Sample.shard Sample.presence_with_username
         (Some
            {| id := 5;
               discriminator := UNDEFINED;
               username := Defined (JStr "x");
               global_name := UNDEFINED;
               avatar_decoration := Defined None;
               avatar_hash := UNDEFINED;
               banner_hash := UNDEFINED;
               accent_color := UNDEFINED;
               is_bot := UNDEFINED;
               is_system := UNDEFINED;
               flags := UNDEFINED |})
         None).
Proof. split; vm_compute; reflexivity. Qed.

Lemma presence_partial_user_witness :
  exists presence user_payload n user,
    Sample.presence_with_username !! "user" = Some user_payload /\
    len user_payload = Return n /\
    (PresenceUpdateEvent Sample.shard Sample.presence_with_username
       (Some
          {| id := 5;
             discriminator := UNDEFINED;
             username := Defined (JStr "x");
             global_name := UNDEFINED;
             avatar_decoration := Defined None;
             avatar_hash := UNDEFINED;
             banner_hash := UNDEFINED;
             accent_color := UNDEFINED;
             is_bot := UNDEFINED;
             is_system := UNDEFINED;
             flags := UNDEFINED |})
       None : SampleEvent)
    = PresenceUpdateEvent Sample.shard presence user None /\
    if 1 <? n
    then exists d u,
        user_payload = JObj d /\ user = Some u /\
        partial_user_spec Sample.app d u
    else user = None.
Proof.
  apply (presence_partial_user _ _ _ _ _ _ _ _ Sample.app Sample.shard
           Sample.presence_with_username None).
  vm_compute. reflexivity.
Defined.

End EventFactoryFacts.

(** ** Task gatherers *)

Module AioFacts.
Import Json Aio.

Lemma await_cancel_done (f f' : Future) r :
  await (cancel f) = (Finished r, f') -> done f' = true.
Proof.
  unfold await, cancel, done.
  destruct f as [[| |r0] mc [|r1|]]; simpl; intros H; inversion H; subst;
    reflexivity.
Qed.

(** When the cleanup loop runs to its end, every operation is done. *)
Lemma cancel_pending_normal (fs fs' : list Future) :
  cancel_pending fs = (fs', Normal) -> all_done fs' = true.
Proof.
  revert fs'. induction fs as [|f rest IH]; intros fs' H; simpl in H.
  - injection H as <-. reflexivity.
  - destruct (negb (done f) && negb (cancelled f)) eqn:Hp.
    + destruct (await (cancel f)) as [[[v|e]|] f'] eqn:Ha.
      * destruct (cancel_pending rest) as [rest' flow]. injection H as <- ->.
        simpl. rewrite (await_cancel_done _ _ _ Ha). apply IH. reflexivity.
      * destruct e;
          try discriminate H;
          destruct (cancel_pending rest) as [rest' flow]; injection H as <- ->;
          simpl; rewrite (await_cancel_done _ _ _ Ha); apply IH; reflexivity.
      * discriminate H.
    + destruct (cancel_pending rest) as [rest' flow]. injection H as <- ->.
      simpl. rewrite (IH _ eq_refl), andb_true_r.
      destruct (done f) eqn:Hd; [reflexivity |].
      unfold done, cancelled in *. destruct (state f); discriminate.
Qed.

(** The loop is left early only through an operation that raises
    something else than [CancelledError] when it is cancelled. *)
Lemma cancel_pending_raises (fs fs' : list Future) e :
  cancel_pending fs = (fs', Raises e) -> existsb raises_on_cancel fs = true.
Proof.
  revert fs'. induction fs as [|f rest IH]; intros fs' H; simpl in H.
  - discriminate.
  - simpl. destruct (negb (done f) && negb (cancelled f)) eqn:Hp.
    + destruct (await (cancel f)) as [[[v|e0]|] f'] eqn:Ha.
      * destruct (cancel_pending rest) as [rest' flow] eqn:Hr.
        injection H as <- ->. rewrite (IH _ eq_refl). apply orb_true_r.
      * assert (Hcase :
            (exists m, e0 = CancelledError m) \/ raises_on_cancel f = true).
        { unfold await, cancel, done, cancelled, raises_on_cancel in *.
          destruct f as [[| |r0] mc [|r1|]]; simpl in *; try discriminate;
            inversion Ha; subst; eauto; destruct e0; eauto. }
        destruct Hcase as [[m ->] | ->]; [| reflexivity].
        destruct (cancel_pending rest) as [rest' flow] eqn:Hr.
        injection H as <- ->. rewrite (IH _ eq_refl). apply orb_true_r.
      * discriminate H.
    + destruct (cancel_pending rest) as [rest' flow] eqn:Hr.
      injection H as <- ->. rewrite (IH _ eq_refl). apply orb_true_r.
Qed.

(** C10: when [first_completed] returns, it returns [None]: the first await
    returned some value, that value is gone, and every operation is done. *)
Theorem first_completed_returns_None (aws fs : list Future) (first : Outcome) v :
  first_completed aws first = (fs, Finished (Return v)) ->
  v = JNull /\ (exists w, first = Finished (Return w)) /\ all_done fs = true.
Proof.
  unfold first_completed. intros H.
  destruct first as [r|]; [| discriminate].
  destruct (cancel_pending aws) as [fs' flow] eqn:Hc.
  destruct flow; try discriminate. injection H as <- H.
  apply cancel_pending_normal in Hc.
  destruct r as [w|e].
  - injection H as <-. eauto.
  - destruct e; discriminate.
Qed.

(** An exception of the first operation is what the caller gets, when the
    cleanup goes through. *)
Lemma first_completed_propagates (aws fs : list Future) code :
  cancel_pending aws = (fs, Normal) ->
  first_completed aws (Finished (Raise (UserError code)))
  = (fs, Finished (Raise (UserError code))).
Proof. intros H. unfold first_completed. rewrite H. reflexivity. Qed.

(** Without an operation that raises on its cancellation, both gatherers
    end with every operation done. *)
Lemma first_completed_drains (aws fs : list Future) (first : Outcome) r :
  existsb raises_on_cancel aws = false ->
  first_completed aws first = (fs, Finished r) ->
  all_done fs = true.
Proof.
  unfold first_completed. intros Hno H.
  destruct first as [r0|]; [| discriminate].
  destruct (cancel_pending aws) as [fs' flow] eqn:Hc.
  destruct flow as [|e|].
  - injection H as <- _. apply (cancel_pending_normal _ _ Hc).
  - apply cancel_pending_raises in Hc. congruence.
  - discriminate.
Qed.

Lemma all_of_drains (aws fs : list Future) (gatherer g : Future)
    (gathered : Outcome) r :
  existsb raises_on_cancel aws = false ->
  all_of aws gatherer gathered = (fs, g, Finished r) ->
  all_done fs = true.
Proof.
  unfold all_of. intros Hno H.
  destruct gathered as [r0|]; [| discriminate].
  destruct (cancel_pending aws) as [fs' flow] eqn:Hc.
  destruct flow as [|e|].
  - apply cancel_pending_normal in Hc.
    destruct (await (cancel gatherer)) as [[[w|e]|] g'];
      [| destruct e |]; try discriminate; injection H as <- _ _; exact Hc.
  - apply cancel_pending_raises in Hc. congruence.
  - discriminate.
Qed.

(** C3: the first of three operations fails; the second raises when the
    cleanup cancels it, which ends the loop; the third is never cancelled
    and stays pending while the gatherer raises to its caller.  [all_of]
    shares the loop and ends the same way. *)
Theorem cleanup_leaves_operation_pending :
  first_completed [AioSample.failed; AioSample.stubborn; AioSample.sleeper]
    (Finished (Raise (UserError 1)))
  = ([AioSample.failed;
      mkFuture (FINISHED (Raise (UserError 2))) true (Completes (Raise (UserError 2)));
      AioSample.sleeper],
     Finished (Raise (UserError 2))) /\
  all_of [AioSample.failed; AioSample.stubborn; AioSample.sleeper]
    AioSample.failed_gatherer (Finished (Raise (UserError 1)))
  = ([AioSample.failed;
      mkFuture (FINISHED (Raise (UserError 2))) true (Completes (Raise (UserError 2)));
      AioSample.sleeper],
     AioSample.failed_gatherer,
     Finished (Raise (UserError 2))) /\
  done AioSample.sleeper = false /\
  must_cancel AioSample.sleeper = false.
Proof. repeat split. Qed.

Lemma first_completed_returns_None_witness :
  JNull = JNull /\
  (exists w, Finished (Return (JInt 42)) = Finished (Return w)) /\
  all_done [AioSample.succeeded; mkFuture CANCELLED true Acknowledges] = true.
Proof.
  apply (first_completed_returns_None
           [AioSample.succeeded; AioSample.sleeper]
           [AioSample.succeeded; mkFuture CANCELLED true Acknowledges]
           (Finished (Return (JInt 42))) JNull).
  reflexivity.
Defined.

End AioFacts.

(** ** Intents: how the privilege test composes *)

Module IntentsMoreFacts.
Import Intents IntentsFacts.

(** X1: a union of intents is privileged exactly when one of its parts
    is. *)
Theorem is_privileged_union (a b : Intents) :
  is_privileged (flag_or a b) = is_privileged a || is_privileged b.
Proof.
  rewrite !is_privileged_bits. unfold flag_or. rewrite !Z.lor_spec.
  destruct (Z.testbit a 1), (Z.testbit a 8), (Z.testbit a 15),
    (Z.testbit b 1), (Z.testbit b 8), (Z.testbit b 15); reflexivity.
Qed.

Lemma unprivileged_bits :
  Z.testbit ALL_UNPRIVILEGED 1 = false /\
  Z.testbit ALL_UNPRIVILEGED 8 = false /\
  Z.testbit ALL_UNPRIVILEGED 15 = false.
Proof. repeat split. Qed.

(** X2: a value made of unprivileged intents only, that is, one inside
    [ALL_UNPRIVILEGED], is not privileged. *)
Theorem within_unprivileged_is_not_privileged (v : Intents) :
  flag_and v ALL_UNPRIVILEGED = v -> is_privileged v = false.
Proof.
  intros H. rewrite is_privileged_bits, <- H. unfold flag_and.
  rewrite !Z.land_spec.
  destruct unprivileged_bits as (-> & -> & ->).
  rewrite !andb_false_r. reflexivity.
Qed.

Lemma within_unprivileged_is_not_privileged_witness :
  is_privileged (flag_or GUILD_MESSAGES DM_MESSAGES) = false.
Proof.
  apply (within_unprivileged_is_not_privileged (flag_or GUILD_MESSAGES DM_MESSAGES)).
  reflexivity.
Defined.

(** X3: taking the privileged part out of a value with [^], the way the
    class documents the removal of intents, leaves a value that is not
    privileged and that keeps every other flag. *)
Theorem removing_privileged_part (v : Intents) :
  let rest := flag_xor v (flag_and v ALL_PRIVILEGED) in
  is_privileged rest = false /\
  flag_or rest (flag_and v ALL_PRIVILEGED) = v /\
  flag_and rest ALL_PRIVILEGED = NONE.
Proof.
  cbv zeta.
  assert (Hbits : forall n, Z.testbit (flag_xor v (flag_and v ALL_PRIVILEGED)) n
                            = Z.testbit v n && negb (Z.testbit ALL_PRIVILEGED n)).
  { intros n. unfold flag_xor, flag_and. rewrite Z.lxor_spec, Z.land_spec.
    destruct (Z.testbit v n), (Z.testbit ALL_PRIVILEGED n); reflexivity. }
  repeat split.
  - rewrite is_privileged_bits, !Hbits.
    replace (Z.testbit ALL_PRIVILEGED 1) with true by reflexivity.
    replace (Z.testbit ALL_PRIVILEGED 8) with true by reflexivity.
    replace (Z.testbit ALL_PRIVILEGED 15) with true by reflexivity.
    rewrite !andb_false_r. reflexivity.
  - apply Z.bits_inj'. intros n _. unfold flag_or. rewrite Z.lor_spec, Hbits.
    unfold flag_and. rewrite Z.land_spec.
    destruct (Z.testbit v n), (Z.testbit ALL_PRIVILEGED n); reflexivity.
  - apply Z.bits_inj'. intros n _. unfold NONE. rewrite Z.bits_0.
    change (Z.testbit (Z.land (flag_xor v (flag_and v ALL_PRIVILEGED)) ALL_PRIVILEGED) n = false).
    rewrite Z.land_spec, Hbits.
    destruct (Z.testbit v n), (Z.testbit ALL_PRIVILEGED n); reflexivity.
Qed.

End IntentsMoreFacts.

(** ** Embeds: the field list, its edits and the length *)

Module EmbedsMoreFacts.
Import Embeds EmbedsMore.

Section Facts.

Variables Color datetime Other : Type.
Variable ensure_resource : Other -> result string.

Implicit Types e : Embed Color datetime.

Lemma set_fields_same e : set_fields e (_fields e) = e.
Proof. destruct e; reflexivity. Qed.

Lemma fields_truthy e l :
  _fields e = Some l -> l <> [] -> truthy (_fields e) = true /\ fields e = l.
Proof.
  intros H Hl. unfold fields. rewrite H. destruct l; [contradiction | auto].
Qed.

Lemma fields_set e (l : list EmbedField) :
  fields (set_fields e (Some l)) = l.
Proof. unfold fields. simpl. destruct l; reflexivity. Qed.

(** X4: [add_field] puts the new field at the end, after every field the
    embed had, with an empty string for a name or value left out; it works
    on any embed. *)
Theorem add_field_appends (name value : option string) (inline : bool) e :
  fields (add_field name value inline e)
  = fields e ++ [mkEmbedField (default EmptyString name)
                              (default EmptyString value) inline].
Proof.
  unfold add_field. rewrite fields_set. unfold fields.
  destruct (_fields e) as [[|f l]|]; destruct name, value; reflexivity.
Qed.

Lemma list_del_last {A : Type} (l : list A) (x : A) :
  list_del (l ++ [x]) (-1) = Return l.
Proof.
  unfold list_del. rewrite length_app. cbn [length].
  change (-1 <? 0) with true. cbv iota.
  replace (-1 + Z.of_nat (length l + 1)) with (Z.of_nat (length l)) by lia.
  destruct (Z.ltb_spec (Z.of_nat (length l)) 0); [lia |].
  destruct (Z.leb_spec (Z.of_nat (length l + 1)) (Z.of_nat (length l))); [lia |].
  cbn [orb]. rewrite Nat2Z.id.
  rewrite take_app_length, drop_ge by (rewrite length_app; simpl; lia).
  rewrite app_nil_r. reflexivity.
Qed.

(** X5: removing the last field right after adding one gives back the
    fields the embed had; the embed itself is the same again unless its
    list was a stored empty list, which comes back as [None]. *)
Theorem remove_after_add (name value : option string) (inline : bool) e :
  exists e',
    remove_field (-1) (add_field name value inline e) = Return e' /\
    fields e' = fields e /\
    (_fields e <> Some [] -> e' = e).
Proof.
  unfold remove_field, add_field.
  set (f := mkEmbedField _ _ _).
  set (l := match _fields e with Some l => l | None => [] end).
  assert (Ht : truthy (Some (l ++ [f])) = true) by (destruct l; reflexivity).
  cbn [_fields set_fields]. rewrite Ht, list_del_last. cbn [bind].
  eexists. split; [reflexivity |].
  unfold fields, l. destruct e as [a c d fs ft im p th ts ti u v].
  destruct fs as [[|x xs]|]; simpl; repeat split; try reflexivity.
  intros H. contradiction.
Qed.

(** X6: on an embed with [n] fields, [n > 0], [remove_field] takes an index
    from [-n] to [n - 1], negative ones counting from the end, and deletes
    that one field; any other index raises [IndexError]. *)
Theorem remove_field_by_index (index : Z) e (l : list EmbedField) :
  _fields e = Some l -> l <> [] ->
  let n := Z.of_nat (length l) in
  (- n <= index < n ->
   exists e', remove_field index e = Return e' /\
              fields e' = delete (Z.to_nat (index mod n)) l) /\
  (index < - n \/ n <= index -> remove_field index e = Raise IndexError).
Proof.
  intros H Hl n. destruct (fields_truthy e l H Hl) as [Ht _].
  assert (Hn : 0 < n) by (subst n; destruct l; [contradiction | simpl; lia]).
  unfold remove_field. rewrite Ht, H. unfold list_del. fold n. split.
  - intros Hi.
    assert (Hpos : (if index <? 0 then index + n else index) = index mod n).
    { destruct (Z.ltb_spec index 0).
      - symmetry. rewrite <- (Z.mod_unique index n (-1) (index + n)); [reflexivity | lia | lia].
      - symmetry. apply Z.mod_small. lia. }
    rewrite Hpos.
    assert (Hr : 0 <= index mod n < n) by (apply Z.mod_pos_bound; lia).
    destruct (Z.ltb_spec (index mod n) 0); [lia |].
    destruct (Z.leb_spec n (index mod n)); [lia |].
    cbn [orb bind]. eexists. split; [reflexivity |].
    rewrite <- delete_take_drop.
    destruct (truthy (Some (delete (Z.to_nat (index mod n)) l))) eqn:E.
    + apply fields_set.
    + unfold fields. simpl.
      destruct (delete (Z.to_nat (index mod n)) l); [reflexivity | discriminate].
  - intros Hi.
    destruct (Z.ltb_spec index 0).
    + destruct (Z.ltb_spec (index + n) 0); [reflexivity |].
      destruct (Z.leb_spec n (index + n)); [reflexivity | lia].
    + destruct (Z.ltb_spec index 0); [lia |].
      destruct (Z.leb_spec n index); [reflexivity | lia].
Qed.

(** X7: on an embed that shows no fields, [edit_field] raises [IndexError]
    for every index while [remove_field] raises nothing for any index and
    leaves the embed without fields. *)
Theorem editing_without_fields (index : Z) (name value : UndefinedOr string)
    (inline : UndefinedOr bool) e :
  fields e = [] ->
  edit_field index name value inline e = Raise IndexError /\
  remove_field index e = Return (clear_fields e).
Proof.
  intros H.
  assert (Ht : truthy (_fields e) = false).
  { unfold fields in H. destruct (_fields e) as [[|f l]|]; try reflexivity.
    simpl in H. discriminate. }
  unfold edit_field, remove_field. rewrite Ht. split; [reflexivity |].
  cbn [bind]. rewrite Ht. reflexivity.
Qed.

(** X8: a call of [edit_field] that goes through reads one position, by
    the rule of list indices, and changes the field there and nothing
    else: the given values are stored, [UNDEFINED] ones keep what was
    there, the other fields and the other slots stay. *)
Theorem edit_field_changes_one_field (index : Z) (name value : UndefinedOr string)
    (inline : UndefinedOr bool) e e' :
  edit_field index name value inline e = Return e' ->
  exists k field,
    list_position (fields e) index = Return k /\
    fields e !! k = Some field /\
    fields e' = <[k := edited name value inline field]> (fields e) /\
    length (fields e') = length (fields e) /\
    (forall j, j <> k -> fields e' !! j = fields e !! j) /\
    set_fields e' (_fields e) = e.
Proof.
  unfold edit_field. intros H.
  destruct (truthy (_fields e)) eqn:Ht; [| discriminate]. simpl in H.
  destruct (_fields e) as [l|] eqn:Hf; [| discriminate].
  apply bind_return_inv in H as (k & Hk & H).
  destruct (l !! k) as [field|] eqn:Hl; [| discriminate].
  injection H as <-.
  assert (Hfe : fields e = l).
  { unfold fields. rewrite Hf. destruct l; [discriminate Ht | reflexivity]. }
  rewrite Hfe, fields_set. exists k, field. repeat split; try assumption.
  - apply length_insert.
  - intros j Hj. apply list_lookup_insert_ne. congruence.
  - destruct e; simpl in *. rewrite Hf. reflexivity.
Qed.

Lemma foldl_field_length (l : list EmbedField) (a : Z) :
  foldl (fun t f => t + field_length f) a l = a + fields_length l.
Proof.
  revert a. induction l as [|f l IH]; intros a; simpl; [lia |].
  rewrite IH. fold (fields_length l). lia.
Qed.

Lemma fields_length_app (l l' : list EmbedField) :
  fields_length (l ++ l') = fields_length l + fields_length l'.
Proof. induction l as [|f l IH]; simpl; [reflexivity |]. fold (fields_length (l ++ l')). fold (fields_length l). lia. Qed.

(** [total_length] is the sum of its five parts. *)
Lemma total_length_parts e :
  total_length e
  = len_or_empty (_title e) + len_or_empty (_description e)
    + fields_length (fields e) + footer_length e + author_length e.
Proof.
  unfold total_length, footer_length, author_length, fields.
  assert (Hs : forall (s : option string) (t : Z),
             match s with
             | Some (String c r) => t + Z.of_nat (String.length (String c r))
             | _ => t
             end = t + len_or_empty s).
  { intros [[|c r]|] t; simpl; lia. }
  destruct (_footer e) as [ft|], (_author e) as [au|];
    rewrite ?Hs; destruct (truthy (_fields e));
    rewrite ?foldl_field_length; simpl; lia.
Qed.

(** X9: the length [total_length] reports grows by the lengths of the name
    and the value of each field added, and is never negative. *)
Theorem total_length_add_field (name value : option string) (inline : bool) e :
  total_length (add_field name value inline e)
  = total_length e + len_or_empty name + len_or_empty value /\
  0 <= total_length e.
Proof.
  split.
  - rewrite !total_length_parts, add_field_appends, fields_length_app.
    unfold add_field, footer_length, author_length. cbn [_footer _author _title _description set_fields fields_length foldr field_length Embeds.name Embeds.value].
    assert (Hf : field_length (mkEmbedField (default EmptyString name)
                                 (default EmptyString value) inline)
                 = len_or_empty name + len_or_empty value)
      by (destruct name, value; reflexivity).
    rewrite Hf. lia.
  - rewrite total_length_parts.
    assert (Hl : forall s, 0 <= len_or_empty s) by (intros [s|]; simpl; lia).
    assert (Hf : forall l, 0 <= fields_length l).
    { induction l as [|f l IH]; simpl; [lia |]. fold (fields_length l).
      unfold field_length. lia. }
    unfold footer_length, author_length.
    pose proof (Hl (_title e)). pose proof (Hl (_description e)).
    pose proof (Hf (fields e)).
    destruct (_footer e) as [ft|]; [pose proof (Hl (footer_text ft)) |];
      (destruct (_author e) as [au|]; [pose proof (Hl (author_name au)) |]); lia.
Qed.

(** X10: [set_footer] and [set_author] leave the fields alone and move
    [total_length] by exactly the difference between the new and the old
    footer text, respectively author name. *)
Theorem footer_and_author_in_total_length
    (text name url : option string) (ficon aicon : option (Resourceish Other))
    e e1 e2 :
  set_footer ensure_resource text ficon e = Return e1 ->
  set_author ensure_resource name url aicon e = Return e2 ->
  fields e1 = fields e /\
  total_length e1 = total_length e - footer_length e + len_or_empty text /\
  fields e2 = fields e /\
  total_length e2 = total_length e - author_length e + len_or_empty name.
Proof.
  intros H1 H2.
  assert (F1 : fields e1 = fields e /\ _title e1 = _title e /\
               _description e1 = _description e /\ author_length e1 = author_length e /\
               footer_length e1 = len_or_empty text).
  { unfold set_footer in H1. destruct text as [t|].
    - apply bind_return_inv in H1 as (i & _ & H1). injection H1 as <-.
      repeat split.
    - destruct ficon; [discriminate |]. injection H1 as <-. repeat split. }
  assert (F2 : fields e2 = fields e /\ _title e2 = _title e /\
               _description e2 = _description e /\ footer_length e2 = footer_length e /\
               author_length e2 = len_or_empty name).
  { unfold set_author in H2.
    destruct name as [n|], url as [u|], aicon as [a|];
      try (apply bind_return_inv in H2 as (i & _ & H2));
      injection H2 as <-; repeat split. }
  destruct F1 as (Ff1 & Ft1 & Fd1 & Fa1 & Fo1).
  destruct F2 as (Ff2 & Ft2 & Fd2 & Fo2 & Fa2).
  rewrite !total_length_parts, Ff1, Ft1, Fd1, Fa1, Fo1, Ff2, Ft2, Fd2, Fo2, Fa2.
  repeat split; lia.
Qed.

End Facts.

Lemma footer_and_author_in_total_length_witness :
  let e : Embed Z Z :=
    mkEmbed None None None None (Some (mkEmbedFooter (Some "old"%string) None))
            None None None None (Some "title"%string) None None in
  let e1 : Embed Z Z :=
    mkEmbed None None None None (Some (mkEmbedFooter (Some "footer"%string) None))
            None None None None (Some "title"%string) None None in
  let e2 : Embed Z Z :=
    mkEmbed (Some (mkEmbedAuthor (Some "me"%string) None
                     (Some (mkEmbedResource "https://a/b.png" None))))
            None None None (Some (mkEmbedFooter (Some "old"%string) None))
            None None None None (Some "title"%string) None None in
  fields e1 = fields e /\
  total_length e1 = total_length e - footer_length e + len_or_empty (Some "footer"%string) /\
  fields e2 = fields e /\
  total_length e2 = total_length e - author_length e + len_or_empty (Some "me"%string).
Proof.
  cbv zeta.
  apply (footer_and_author_in_total_length Z Z string (fun s => Return s)
           (Some "footer"%string) (Some "me"%string) None None
           (Some (OfOther "https://a/b.png"%string))).
  - reflexivity.
  - reflexivity.
Defined.

Lemma remove_field_by_index_witness :
  let e : Embed Z Z :=
    add_field (Some "b"%string) None false
      (add_field (Some "a"%string) None false
         (mkEmbed None None None None None None None None None None None None)) in
  let l := [mkEmbedField "a" "" false; mkEmbedField "b" "" false] in
  (- 2 <= -2 < 2 ->
   exists e', remove_field (-2) e = Return e' /\
              fields e' = delete (Z.to_nat (-2 mod 2)) l) /\
  (-2 < - 2 \/ 2 <= -2 -> remove_field (-2) e = Raise IndexError).
Proof.
  cbv zeta.
  apply (remove_field_by_index Z Z (-2)
           (add_field (Some "b"%string) None false
              (add_field (Some "a"%string) None false
                 (mkEmbed None None None None None None None None None None None None)))
           [mkEmbedField "a" "" false; mkEmbedField "b" "" false]).
  - reflexivity.
  - discriminate.
Defined.

Lemma editing_without_fields_witness :
  edit_field 0 (Defined "n"%string) UNDEFINED UNDEFINED
    (mkEmbed None None None (Some []) None None None None None None None None
       : Embed Z Z)
  = Raise IndexError /\
  remove_field 0
    (mkEmbed None None None (Some []) None None None None None None None None
       : Embed Z Z)
  = Return (clear_fields
              (mkEmbed None None None (Some []) None None None None None None None None)).
Proof.
  apply (editing_without_fields Z Z 0 (Defined "n"%string) UNDEFINED UNDEFINED
           (mkEmbed None None None (Some []) None None None None None None None None)).
  reflexivity.
Defined.

Lemma edit_field_changes_one_field_witness :
  let e : Embed Z Z :=
    mkEmbed None None None (Some [mkEmbedField "a" "x" false; mkEmbedField "b" "y" false])
            None None None None None None None None in
  let e' : Embed Z Z :=
    mkEmbed None None None (Some [mkEmbedField "a" "x" false; mkEmbedField "c" "y" true])
            None None None None None None None None in
  exists k field,
    list_position (fields e) (-1) = Return k /\
    fields e !! k = Some field /\
    fields e' = <[k := edited (Defined "c"%string) UNDEFINED (Defined true) field]> (fields e) /\
    length (fields e') = length (fields e) /\
    (forall j, j <> k -> fields e' !! j = fields e !! j) /\
    set_fields e' (_fields e) = e.
Proof.
  cbv zeta.
  apply (edit_field_changes_one_field Z Z (-1) (Defined "c"%string) UNDEFINED
           (Defined true)).
  reflexivity.
Defined.

End EmbedsMoreFacts.

(** ** Time codec: what can go wrong, and the ISO-8601 fallback *)

Module TimeMoreFacts.
Import Time TimeMore.

Lemma int_truediv_raises (a b : Z) e :
  int_truediv a b = Raise e ->
  (b = 0 /\ e = ZeroDivisionError) \/ e = OverflowError.
Proof.
  unfold int_truediv. destruct (Z.eqb_spec b 0); [intros [= <-]; auto |].
  destruct (a =? 0); [discriminate |].
  destruct (SFdiv_core_binary _ _ _ _ _ _) as [[q x] l].
  destruct (binary_round_aux _ _ _ _ _ _); intros H; try discriminate.
  injection H as <-. auto.
Qed.

Lemma int_to_float_raises (z : Z) e :
  int_to_float z = Raise e -> e = OverflowError.
Proof.
  unfold int_to_float. destruct (binary_normalize _ _ _ _ _); intros H;
    try discriminate. injection H as <-. reflexivity.
Qed.

Lemma truediv_raises (x : pynum) (d : Z) e :
  d <> 0 -> truediv x d = Raise e -> e = OverflowError.
Proof.
  intros Hd. destruct x as [z|f]; simpl.
  - intros H. apply int_truediv_raises in H as [[? _] | ->];
      [contradiction | reflexivity].
  - destruct (Z.eqb_spec d 0); [contradiction |].
    destruct (int_to_float d) eqn:E; simpl; intros H; [discriminate |].
    injection H as <-. apply (int_to_float_raises _ _ E).
Qed.

Lemma divisor_not_zero (is_millis : bool) : divisor is_millis <> 0.
Proof. destruct is_millis; discriminate. Qed.

Lemma fromtimestamp_raises (t : float) e :
  fromtimestamp t = Raise e -> caught e = true \/ e = OverflowError.
Proof.
  unfold fromtimestamp.
  assert (Hmain :
    match float_trunc t with
    | Some intpart =>
      ipf <- int_to_float intpart ;;
      let floatpart := ((t - ipf) * 1000000)%float in
      match float_round_half_even floatpart with
      | Some us =>
        let '(sec, us0) :=
          if us_per_second <=? us then (intpart + 1, us - us_per_second)
          else if us <? 0 then (intpart - 1, us + us_per_second)
          else (intpart, us) in
        if negb ((time_t_min <=? sec) && (sec <=? time_t_max))
        then Raise OverflowError
        else if negb ((gmtime_min <=? sec) && (sec <=? gmtime_max))
        then Raise OSError
        else if negb ((min_seconds <=? sec) && (sec <=? max_seconds))
        then Raise ValueError
        else Return (mk_datetime (sec * us_per_second + us0))
      | None => Raise ValueError
      end
    | None => Raise ValueError
    end = Raise e -> caught e = true \/ e = OverflowError).
  { destruct (float_trunc t) as [intpart|]; [| intros [= <-]; auto].
    destruct (int_to_float intpart) as [ipf|e0] eqn:E; simpl.
    - destruct (float_round_half_even _) as [us|]; [| intros [= <-]; auto].
      destruct (if us_per_second <=? us then _ else _) as [sec us0].
      repeat match goal with
             | |- context [if ?c then _ else _] => destruct c
             end; intros H; try discriminate; injection H as <-; auto.
    - intros [= <-]. right. apply (int_to_float_raises _ _ E). }
  destruct (Prim2SF t); intros H; try (apply Hmain; exact H);
    injection H as <-; auto.
Qed.

(** X11: on any number, [unix_epoch_to_datetime] returns a datetime or
    raises [OverflowError]: the handler turns every [OSError] and
    [ValueError] into [datetime.max] or [datetime.min], and nothing else
    can come out of the division and of [fromtimestamp]. *)
Theorem unix_epoch_to_datetime_only_overflows (epoch : pynum) (is_millis : bool) e :
  unix_epoch_to_datetime epoch is_millis = Raise e -> e = OverflowError.
Proof.
  unfold unix_epoch_to_datetime.
  destruct (truediv epoch (divisor is_millis)) as [t|e0] eqn:Hd.
  - destruct (fromtimestamp t) as [d|e1] eqn:Ht; [discriminate |].
    apply fromtimestamp_raises in Ht as [Hc | ->].
    + rewrite Hc. discriminate.
    + simpl. intros [= <-]. reflexivity.
  - apply truediv_raises in Hd as ->; [| apply divisor_not_zero].
    simpl. intros [= <-]. reflexivity.
Qed.

Lemma unix_epoch_to_datetime_only_overflows_witness : OverflowError = OverflowError.
Proof.
  apply (unix_epoch_to_datetime_only_overflows (PyFloat 1e22) true OverflowError).
  vm_compute. reflexivity.
Defined.

(** X12: a Discord epoch decodes to the datetime that the same number
    decodes to as a UNIX epoch in milliseconds, moved by [DISCORD_EPOCH]. *)
Theorem discord_epoch_is_shifted_unix_epoch (epoch : Z) (d : datetime) :
  discord_epoch_to_datetime epoch = Return d ->
  unix_epoch_to_datetime (PyInt epoch) true
  = Return (mk_datetime (micros d - DISCORD_EPOCH)).
Proof.
  unfold discord_epoch_to_datetime, unix_epoch_to_datetime. intros H.
  apply bind_return_inv in H as (t & Ht & H).
  apply bind_return_inv in H as (u & Hu & H).
  change (truediv (PyInt epoch) (divisor true)) with (int_truediv epoch 1000).
  rewrite Ht, Hu. unfold datetime_add in H.
  destruct (in_calendar _); [| discriminate]. injection H as <-. simpl.
  destruct u as [us]. simpl. f_equal. f_equal. lia.
Qed.

Lemma discord_epoch_is_shifted_unix_epoch_witness :
  unix_epoch_to_datetime (PyInt 1457991678956) true
  = Return (mk_datetime (micros (mk_datetime 2878062078956000) - DISCORD_EPOCH)).
Proof.
  apply (discord_epoch_is_shifted_unix_epoch 1457991678956
           (mk_datetime 2878062078956000)).
  vm_compute. reflexivity.
Defined.

Lemma float_trunc_positive (f : float) z :
  (0 <? f)%float = true -> float_trunc f = Some z -> 0 <= z.
Proof.
  rewrite ltb_spec. unfold float_trunc.
  change (Prim2SF 0) with (S754_zero false).
  intros Hlt Htr.
  destruct (Prim2SF f) as [s| | |s m e]; try discriminate Htr.
  - injection Htr as <-. lia.
  - unfold SFltb, SFcompare in Hlt. destruct s; [discriminate Hlt |].
    injection Htr as <-. destruct (Z.leb_spec 0 e).
    + apply Z.mul_nonneg_nonneg; [lia |]. apply Z.pow_nonneg. lia.
    + apply Z.div_pos; [lia |]. apply Z.pow_pos_nonneg; lia.
Qed.

(** X13: [timespan_to_int] never gives a negative number; an int is cut
    off below at zero and otherwise returned as it is. *)
Theorem timespan_to_int_not_negative (value : Intervalish) (r : Z) :
  timespan_to_int value = Return r ->
  0 <= r /\
  forall z, value = Seconds (PyInt z) -> r = Z.max 0 z.
Proof.
  unfold timespan_to_int. intros H.
  apply bind_return_inv in H as (v & Hv & H). split.
  - unfold max_zero in H. destruct (gt_zero v) eqn:Hg.
    + destruct v as [z|f]; simpl in *.
      * injection H as <-. destruct (Z.ltb_spec 0 z); [lia | discriminate].
      * unfold float_to_int in H.
        destruct (float_trunc f) as [z|] eqn:Ht.
        -- assert (0 <= z) by (eapply float_trunc_positive; eassumption).
           destruct (Prim2SF f); try discriminate; injection H as <-; assumption.
        -- destruct (Prim2SF f); discriminate.
    + injection H as <-. lia.
  - intros z ->. injection Hv as <-. unfold max_zero in H. simpl in H.
    destruct (Z.ltb_spec 0 z); injection H as <-; lia.
Qed.

Lemma timespan_to_int_not_negative_witness :
  0 <= 2 /\ forall z, Seconds (PyFloat 2.5) = Seconds (PyInt z) -> 2 = Z.max 0 z.
Proof.
  apply (timespan_to_int_not_negative (Seconds (PyFloat 2.5)) 2).
  vm_compute. reflexivity.
Defined.

Lemma last_char_app (s : string) (c : Ascii.ascii) :
  last_char (s ++ String c EmptyString) = Some c.
Proof.
  induction s as [|a s IH]; [reflexivity |].
  change (String a s ++ String c "")%string with (String a (s ++ String c "")).
  destruct (s ++ String c "")%string as [|b r] eqn:E.
  - destruct s; discriminate.
  - change (last_char (String a (String b r))) with (last_char (String b r)).
    exact IH.
Qed.

Lemma drop_last_app (s : string) (c : Ascii.ascii) :
  drop_last (s ++ String c EmptyString) = s.
Proof.
  induction s as [|a s IH]; [reflexivity |].
  change (String a s ++ String c "")%string with (String a (s ++ String c "")).
  destruct (s ++ String c "")%string as [|b r] eqn:E.
  - destruct s; discriminate.
  - change (drop_last (String a (String b r))) with (String a (drop_last (String b r))).
    rewrite IH. reflexivity.
Qed.

(** X14: the fallback ISO-8601 parser reads a trailing [Z] or [z] as the
    offset [+00:00]: the three spellings parse alike, and a string with
    another ending goes to [fromisoformat] as it is. *)
Theorem zulu_suffix_is_utc_offset (fromisoformat : string -> result datetime)
    (s : string) :
  slow_iso8601_datetime_string_to_datetime fromisoformat (s ++ "Z")
  = fromisoformat (s ++ "+00:00")%string /\
  slow_iso8601_datetime_string_to_datetime fromisoformat (s ++ "z")
  = fromisoformat (s ++ "+00:00")%string /\
  slow_iso8601_datetime_string_to_datetime fromisoformat (s ++ "+00:00")
  = fromisoformat (s ++ "+00:00")%string /\
  (ends_with_zulu s = false ->
   slow_iso8601_datetime_string_to_datetime fromisoformat s = fromisoformat s).
Proof.
  unfold slow_iso8601_datetime_string_to_datetime, ends_with_zulu.
  repeat split.
  - rewrite last_char_app, drop_last_app. reflexivity.
  - rewrite last_char_app, drop_last_app. reflexivity.
  - replace (s ++ "+00:00")%string with ((s ++ "+00:0") ++ "0")%string.
    + rewrite last_char_app. reflexivity.
    + induction s as [|a s IH]; [reflexivity |].
      change (String a ((s ++ "+00:0") ++ "0") = String a (s ++ "+00:00"))%string.
      f_equal. exact IH.
  - intros H. unfold ends_with_zulu in H. rewrite H. reflexivity.
Qed.

End TimeMoreFacts.

Module AioMoreFacts.
Import Json Aio AioMore.

Lemma done_not_pending (f : Future) :
  done f = true -> negb (done f) && negb (cancelled f) = false.
Proof. intros ->. reflexivity. Qed.

Lemma cancel_pending_frame (fs fs' : list Future) flow :
  cancel_pending fs = (fs', flow) ->
  length fs' = length fs /\
  forall i f, fs !! i = Some f -> done f = true -> fs' !! i = Some f.
Proof.
  revert fs' flow. induction fs as [|f rest IH]; intros fs' flow H; simpl in H.
  - injection H as <- <-. split; [reflexivity | intros i f Hi; discriminate Hi].
  - destruct (negb (done f) && negb (cancelled f)) eqn:Hp.
    + assert (Hnd : done f = false).
      { destruct (done f); [discriminate Hp | reflexivity]. }
      assert (Hrest : forall f' rest' flow',
                 cancel_pending rest = (rest', flow') ->
                 length (f' :: rest') = length (f :: rest) /\
                 forall i g, (f :: rest) !! i = Some g -> done g = true ->
                             (f' :: rest') !! i = Some g).
      { intros f' rest' flow' Hr. destruct (IH _ _ Hr) as [Hl Hk]. split.
        - simpl. rewrite Hl. reflexivity.
        - intros [|i] g Hi Hd; simpl in *.
          + injection Hi as <-. congruence.
          + apply Hk; assumption. }
      assert (Hstop : forall f',
                 length (f' :: rest) = length (f :: rest) /\
                 forall i g, (f :: rest) !! i = Some g -> done g = true ->
                             (f' :: rest) !! i = Some g).
      { intros f'. split; [reflexivity |].
        intros [|i] g Hi Hd; simpl in *.
        - injection Hi as <-. congruence.
        - exact Hi. }
      destruct (await (cancel f)) as [[[v|e]|] f'] eqn:Ha.
      * destruct (cancel_pending rest) as [rest' flow'] eqn:Hr.
        injection H as <- <-. apply (Hrest _ _ _ eq_refl).
      * destruct e;
          try (injection H as <- <-; apply Hstop).
        destruct (cancel_pending rest) as [rest' flow'] eqn:Hr.
        injection H as <- <-. apply (Hrest _ _ _ eq_refl).
      * injection H as <- <-. apply Hstop.
    + destruct (cancel_pending rest) as [rest' flow'] eqn:Hr.
      injection H as <- <-. destruct (IH _ _ eq_refl) as [Hl Hk]. split.
      * simpl. rewrite Hl. reflexivity.
      * intros [|i] g Hi Hd; simpl in *; [exact Hi | apply Hk; assumption].
Qed.

Lemma await_cancel_well_behaved (f : Future) :
  well_behaved f = true -> done f = false ->
  exists f', (exists v, await (cancel f) = (Finished (Return v), f')) \/
             (exists m, await (cancel f) = (Finished (Raise (CancelledError m)), f')).
Proof.
  unfold well_behaved, ends_when_cancelled, raises_on_cancel, await, cancel, done.
  destruct f as [[| |r0] mc [|[v|e]|]]; simpl; intros Hw Hd;
    try discriminate; eauto.
  destruct e; try discriminate; eauto.
Qed.

Lemma cancel_pending_well_behaved (fs : list Future) :
  forallb well_behaved fs = true ->
  exists fs', cancel_pending fs = (fs', Normal).
Proof.
  induction fs as [|f rest IH]; simpl; intros H.
  - eauto.
  - apply andb_true_iff in H as [Hf Hrest].
    destruct (IH Hrest) as [rest' Hr]. rewrite Hr.
    destruct (negb (done f) && negb (cancelled f)) eqn:Hp; [| eauto].
    assert (Hnd : done f = false).
    { destruct (done f); [discriminate Hp | reflexivity]. }
    destruct (await_cancel_well_behaved f Hf Hnd) as [f' [[v Ha] | [m Ha]]];
      rewrite Ha; eauto.
Qed.

(** X15: neither gatherer touches an operation that is done when the
    cleanup starts, however the call ends: the operations are as many as
    before and a done one is at its place, unchanged. *)
Theorem gatherers_keep_done_operations (aws fs fs' : list Future)
    (gatherer g : Future) (first gathered out out' : Outcome) :
  first_completed aws first = (fs, out) ->
  all_of aws gatherer gathered = (fs', g, out') ->
  (length fs = length aws /\
   forall i f, aws !! i = Some f -> done f = true -> fs !! i = Some f) /\
  (length fs' = length aws /\
   forall i f, aws !! i = Some f -> done f = true -> fs' !! i = Some f).
Proof.
  assert (Hsame : length aws = length aws /\
            forall i f, aws !! i = Some f -> done f = true -> aws !! i = Some f).
  { split; [reflexivity | intros i f Hi _; exact Hi]. }
  unfold first_completed, all_of. intros H1 H2. split.
  - destruct first as [r|]; [| injection H1 as <- _; exact Hsame].
    destruct (cancel_pending aws) as [l flow] eqn:Hc.
    apply cancel_pending_frame in Hc.
    destruct flow; injection H1 as <- _; exact Hc.
  - destruct gathered as [r|]; [| injection H2 as <- _ _; exact Hsame].
    destruct (cancel_pending aws) as [l flow] eqn:Hc.
    apply cancel_pending_frame in Hc.
    destruct flow; try (injection H2 as <- _ _; exact Hc).
    destruct (await (cancel gatherer)) as [[[w|e]|] g'];
      [| destruct e |]; injection H2 as <- _ _; exact Hc.
Qed.

Lemma gatherers_keep_done_operations_witness :
  (length [AioSample.succeeded; mkFuture CANCELLED true Acknowledges]
   = length [AioSample.succeeded; AioSample.sleeper] /\
   forall i f, [AioSample.succeeded; AioSample.sleeper] !! i = Some f ->
               done f = true ->
               [AioSample.succeeded; mkFuture CANCELLED true Acknowledges] !! i
               = Some f) /\
  (length [AioSample.succeeded; mkFuture CANCELLED true Acknowledges]
   = length [AioSample.succeeded; AioSample.sleeper] /\
   forall i f, [AioSample.succeeded; AioSample.sleeper] !! i = Some f ->
               done f = true ->
               [AioSample.succeeded; mkFuture CANCELLED true Acknowledges] !! i
               = Some f).
Proof.
  apply (gatherers_keep_done_operations
           [AioSample.succeeded; AioSample.sleeper]
           [AioSample.succeeded; mkFuture CANCELLED true Acknowledges]
           [AioSample.succeeded; mkFuture CANCELLED true Acknowledges]
           (mkFuture CANCELLED false Acknowledges)
           (mkFuture CANCELLED false Acknowledges)
           (Finished (Return (JInt 42)))
           (Finished (Raise (TimeoutError None)))
           (Finished (Return JNull))
           (Finished (Raise (TimeoutError (Some "all_of gatherer timed out"%string)))));
    reflexivity.
Defined.

(** X16: when every operation ends quietly once cancelled,
    [first_completed] ends, with every operation done: with [None] when
    the first await returned, with its own message on a cancellation or a
    timeout, with the exception of the first operation otherwise. *)
Theorem first_completed_ends (aws : list Future) (r : result json) :
  forallb well_behaved aws = true ->
  exists fs,
    first_completed aws (Finished r)
    = (fs,
       Finished
         match r with
         | Return _ => Return JNull
         | Raise (CancelledError _) =>
           Raise (CancelledError (Some "first_completed gatherer cancelled"%string))
         | Raise (TimeoutError _) =>
           Raise (TimeoutError (Some "first_completed gatherer timed out"%string))
         | Raise e => Raise e
         end) /\
    all_done fs = true.
Proof.
  intros H. destruct (cancel_pending_well_behaved aws H) as [fs Hc].
  exists fs. split.
  - unfold first_completed. rewrite Hc.
    destruct r as [v|e]; [reflexivity | destruct e; reflexivity].
  - apply (AioFacts.cancel_pending_normal _ _ Hc).
Qed.

Lemma first_completed_ends_witness :
  exists fs,
    first_completed [AioSample.sleeper; AioSample.sleeper]
      (Finished (Raise (TimeoutError None)))
    = (fs,
       Finished
         (Raise (TimeoutError (Some "first_completed gatherer timed out"%string)))) /\
    all_done fs = true.
Proof.
  apply (first_completed_ends [AioSample.sleeper; AioSample.sleeper]
           (Raise (TimeoutError None))).
  reflexivity.
Defined.

(** X17: when every operation and the gatherer end quietly once cancelled,
    [all_of] ends with every operation and the gatherer done.  It returns
    what the awaited gatherer returned and raises what it raised, with
    its own message on a timeout or a cancellation; but an exception the
    gatherer itself holds, other than [CancelledError], takes the place of
    all of these. *)
Theorem all_of_ends (aws : list Future) (gatherer : Future) (r : result json) :
  forallb well_behaved aws = true ->
  well_behaved gatherer = true ->
  exists fs g,
    all_of aws gatherer (Finished r)
    = (fs, g,
       Finished
         match state gatherer with
         | FINISHED (Raise (CancelledError _)) | FINISHED (Return _)
         | CANCELLED | PENDING =>
           match r with
           | Raise (TimeoutError _) =>
             Raise (TimeoutError (Some "all_of gatherer timed out"%string))
           | Raise (CancelledError _) =>
             Raise (CancelledError (Some "all_of gatherer cancelled"%string))
           | other => other
           end
         | FINISHED (Raise e) => Raise e
         end) /\
    all_done fs = true /\ done g = true.
Proof.
  intros H Hg. destruct (cancel_pending_well_behaved aws H) as [fs Hc].
  unfold all_of. rewrite Hc.
  pose proof (AioFacts.cancel_pending_normal _ _ Hc) as Hd.
  revert Hg.
  unfold well_behaved, ends_when_cancelled, raises_on_cancel, await, cancel, done.
  destruct gatherer as [[| |[w|e0]] mc [|[v|e]|]]; simpl; intros Hg;
    try discriminate Hg;
    try (destruct e; try discriminate Hg);
    try (destruct e0);
    eexists; eexists; (split; [reflexivity | split; [exact Hd | reflexivity]]).
Qed.

Lemma all_of_ends_witness :
  exists fs g,
    all_of [AioSample.succeeded; AioSample.sleeper]
      (mkFuture CANCELLED false Acknowledges)
      (Finished (Raise (TimeoutError None)))
    = (fs, g,
       Finished (Raise (TimeoutError (Some "all_of gatherer timed out"%string)))) /\
    all_done fs = true /\ done g = true.
Proof.
  apply (all_of_ends [AioSample.succeeded; AioSample.sleeper]
           (mkFuture CANCELLED false Acknowledges)
           (Raise (TimeoutError None)));
    reflexivity.
Defined.










End AioMoreFacts.

Module EventFactoryMoreFacts.
Import Json EventFactory EventFactoryMore.

(** Peel the binds of a successful run, one call at a time. *)
Ltac unbind H :=
  repeat
    (let x := fresh "x" in
     let Hx := fresh "Hx" in
     apply bind_return_inv in H as (x & Hx & H)).

Lemma bind_raises_later (A B : Type) (r : result A) (k : A -> result B) :
  (forall a, exists ex, k a = Raise ex) -> exists ex, bind r k = Raise ex.
Proof. intros H. destruct r as [a|ex]; simpl; eauto. Qed.

(** A run that reaches a failing call raises. *)
Ltac raises :=
  repeat
    match goal with
    | |- exists ex, bind (Raise _) _ = Raise ex => eexists; reflexivity
    | |- exists ex, bind _ _ = Raise ex =>
      apply bind_raises_later; intros ?; cbv zeta
    end.

Section Facts.

Variables Shard Member Message PartialMessage MemberPresence : Type.
Variables UserFlag Color AvatarDecoration : Type.
Variable app : App Member Message PartialMessage MemberPresence UserFlag Color.
Variables AutoModAction AutoModTriggerType : Type.
Variable deserialize_auto_mod_action : json -> result AutoModAction.
Variable AutoModTriggerType_of : json -> result AutoModTriggerType.
Variable format : json -> string.

Implicit Types (payload : JSONObject) (shard : Shard).

Lemma getitem_return payload key v :
  getitem payload key = Return v -> payload !! key = Some v.
Proof.
  unfold getitem. destruct (payload !! key); intros H; inversion H; reflexivity.
Qed.

Lemma snowflake_at_return payload key s :
  snowflake_at app payload key = Return s ->
  exists raw, payload !! key = Some raw /\ Snowflake_of app raw = Return s.
Proof.
  unfold snowflake_at. intros H. unbind H.
  apply getitem_return in Hx. eauto.
Qed.

Lemma snowflake_at_missing payload key :
  payload !! key = None -> snowflake_at app payload key = Raise (KeyError key).
Proof. unfold snowflake_at, getitem. intros ->. reflexivity. Qed.

Lemma contains_missing payload key :
  payload !! key = None -> contains payload key = false.
Proof.
  intros H. unfold contains. apply bool_decide_eq_false.
  rewrite H. intros [? ?]. discriminate.
Qed.

Lemma contains_present payload key :
  is_Some (payload !! key) -> contains payload key = true.
Proof. intros H. unfold contains. apply bool_decide_eq_true. exact H. Qed.

(** A field set from [payload.get(key)] when that [is not None]. *)
Lemma optional_by_None (A : Type) (decoder : json -> result A) (raw : json)
    (field : option A) :
  (if negb (is_None raw)
   then (s <- decoder raw ;; Return (Some s))
   else Return None) = Return field ->
  match raw with
  | JNull => field = None
  | _ => exists s, decoder raw = Return s /\ field = Some s
  end.
Proof.
  destruct raw; simpl; intros H;
    try (injection H as <-; reflexivity);
    unbind H; injection H as <-; eauto.
Qed.

(** X20: a payload without the key [channel_id] decodes to no event.  The
    operations that read the payload themselves raise [KeyError] for that
    key, which is the first they read; the poll vote operations read the
    user id first and raise on it or on the missing key.  Message-create and
    message-update hand the payload to the entity factory. *)
Theorem decode_needs_channel_id op shard payload :
  payload !! "channel_id" = None ->
  match op with
  | MessageCreate | MessageUpdate => True
  | PollVoteAdd | PollVoteRemove =>
    exists ex, decode (AvatarDecoration := AvatarDecoration) app op shard payload
               = Raise ex
  | _ => decode (AvatarDecoration := AvatarDecoration) app op shard payload
         = Raise (KeyError "channel_id")
  end.
Proof.
  intros H. pose proof (snowflake_at_missing payload "channel_id" H) as Hs.
  destruct op; cbn [decode]; try exact I;
    unfold deserialize_message_delete_event, deserialize_channel_pins_update_event,
      deserialize_typing_start_event, deserialize_message_reaction_add_event,
      deserialize_message_reaction_remove_event,
      deserialize_message_reaction_remove_all_event,
      deserialize_message_reaction_remove_emoji_event,
      deserialize_poll_vote_create_event, deserialize_poll_vote_delete_event;
    rewrite Hs; try reflexivity;
    apply bind_raises_later; intros a; cbn [bind]; eauto.
Qed.

(** X21: the pins update event holds no timestamp exactly when the payload
    has no [last_pin_timestamp] or has [null] there; any other value goes
    through the ISO-8601 parser, whose result the event holds. *)
Theorem pins_timestamp_of_payload shard payload
    (e : Event Shard Member Message PartialMessage MemberPresence UserFlag Color
               AvatarDecoration) :
  deserialize_channel_pins_update_event app shard payload = Return e ->
  exists ts,
    last_pin_timestamp e = Return ts /\
    match payload !! "last_pin_timestamp" with
    | None | Some JNull => ts = None
    | Some raw =>
      exists t, iso8601_datetime_string_to_datetime app raw = Return t /\
                ts = Some t
    end.
Proof.
  unfold deserialize_channel_pins_update_event. intros H. unbind H.
  apply optional_by_None in Hx0.
  exists x0. split.
  - destruct (contains payload "guild_id"); unbind H; injection H as <-;
      reflexivity.
  - unfold get in Hx0.
    destruct (payload !! "last_pin_timestamp") as [raw|]; simpl in Hx0;
      [destruct raw |]; exact Hx0.
Qed.

(** X22: the guild variants of reaction-add and typing-start need both
    keys: a reaction with [member] and no [guild_id], and a typing start
    with [guild_id] and no [member], decode to no event. *)
Theorem guild_event_needs_member_and_guild_id op shard payload :
  (op = ReactionAdd /\ is_Some (payload !! "member") /\
   payload !! "guild_id" = None) \/
  (op = TypingStart /\ is_Some (payload !! "guild_id") /\
   payload !! "member" = None) ->
  exists ex, decode (AvatarDecoration := AvatarDecoration) app op shard payload
             = Raise ex.
Proof.
  intros [(-> & Hm & Hg) | (-> & Hg & Hm)]; cbn [decode].
  - unfold deserialize_message_reaction_add_event.
    rewrite (contains_present _ _ Hm), (snowflake_at_missing _ _ Hg).
    raises.
  - unfold deserialize_typing_start_event.
    rewrite (contains_present _ _ Hg).
    unfold getitem at 2. rewrite Hm. raises.
Qed.

(** X23: a voice server update needs the key [endpoint], unlike the
    optional fields of other events.  The endpoint of the event is [None]
    exactly when the payload has [null] there, and a host name comes back
    with the scheme [wss://] before it. *)
Theorem voice_endpoint_of_payload shard payload
    (event : VoiceEvents.VoiceServerUpdateEvent Shard) :
  deserialize_voice_server_update_event app shard payload = Return event ->
  exists raw,
    payload !! "endpoint" = Some raw /\
    (VoiceEvents.endpoint format event = None <-> raw = JNull) /\
    (forall s, raw = JStr s ->
               VoiceEvents.endpoint format event = Some ("wss://" ++ s)%string).
Proof.
  unfold deserialize_voice_server_update_event. intros H. unbind H.
  injection H as <-. apply getitem_return in Hx1.
  exists x1. split; [exact Hx1 |]. unfold VoiceEvents.endpoint. simpl. split.
  - destruct x1; split; intros H; try reflexivity; discriminate H.
  - intros s ->. reflexivity.
Qed.

(** X24: an integration delete event has no application id exactly when
    the payload has no [application_id] or has [null] there; its id and its
    guild id are the decoded [id] and [guild_id], which must be there. *)
Theorem integration_delete_of_payload shard payload
    (event : IntegrationDelete.IntegrationDeleteEvent Shard) :
  deserialize_integration_delete_event app shard payload = Return event ->
  match payload !! "application_id" with
  | None | Some JNull => IntegrationDelete.application_id event = None
  | Some raw =>
    exists s, Snowflake_of app raw = Return s /\
              IntegrationDelete.application_id event = Some s
  end /\
  (exists raw, payload !! "id" = Some raw /\
               Snowflake_of app raw = Return (IntegrationDelete.id event)) /\
  (exists raw, payload !! "guild_id" = Some raw /\
               Snowflake_of app raw = Return (IntegrationDelete.guild_id event)).
Proof.
  unfold deserialize_integration_delete_event. intros H. unbind H.
  injection H as <-. simpl.
  apply optional_by_None in Hx.
  apply snowflake_at_return in Hx0, Hx1.
  split; [| split; assumption].
  unfold get in Hx.
  destruct (payload !! "application_id") as [raw|]; simpl in Hx;
    [destruct raw |]; exact Hx.
Qed.

(** X25: in an auto-moderation action event the channel id and the message
    id are dropped for every falsy value of the payload (also [0] and the
    empty string), the id of the alert message only for [null] or a missing
    key; the content and the matched content are never an empty string (or
    another falsy value): they are [None] instead. *)
Theorem auto_mod_optional_fields shard payload
    (event : AutoMod.AutoModActionExecutionEvent Shard AutoModAction
               AutoModTriggerType) :
  deserialize_auto_mod_action_execution_event app deserialize_auto_mod_action
    AutoModTriggerType_of shard payload = Return event ->
  (AutoMod.channel_id event = None <->
   truthy (get payload "channel_id") = false) /\
  (AutoMod.message_id event = None <->
   truthy (get payload "message_id") = false) /\
  (AutoMod.alert_system_message_id event = None <->
   get payload "alert_system_message_id" = JNull) /\
  (AutoMod.content event = JNull \/ truthy (AutoMod.content event) = true) /\
  (AutoMod.matched_content event = JNull \/
   truthy (AutoMod.matched_content event) = true).
Proof.
  unfold deserialize_auto_mod_action_execution_event. intros H. unbind H.
  injection H as <-. simpl.
  assert (Hor : forall j, or_None j = JNull \/ truthy (or_None j) = true).
  { intros j. unfold or_None. destruct (truthy j) eqn:E; [right | left];
      [exact E | reflexivity]. }
  repeat split; try apply Hor.
  - intros ->. destruct (truthy (get payload "channel_id")); [| reflexivity].
    unbind Hx6. discriminate Hx6.
  - intros E. rewrite E in Hx6. injection Hx6 as <-. reflexivity.
  - intros ->. destruct (truthy (get payload "message_id")); [| reflexivity].
    unbind Hx7. discriminate Hx7.
  - intros E. rewrite E in Hx7. injection Hx7 as <-. reflexivity.
  - intros ->. apply optional_by_None in Hx8.
    destruct (get payload "alert_system_message_id"); try reflexivity;
      destruct Hx8 as (? & _ & Hs); discriminate Hs.
  - intros E. rewrite E in Hx8. injection Hx8 as <-. reflexivity.
Qed.

End Facts.

Lemma decode_needs_channel_id_witness :
  decode (AvatarDecoration := unit) Sample.app ReactionRemoveAll Sample.shard
    {[ "message_id" := JStr "7" ]}
  = Raise (KeyError "channel_id").
Proof.
  apply (decode_needs_channel_id _ _ _ _ _ _ _ unit Sample.app ReactionRemoveAll
           Sample.shard {[ "message_id" := JStr "7" ]}).
  reflexivity.
Defined.

Lemma pins_timestamp_of_payload_witness :
  exists ts,
    last_pin_timestamp
      (DMPinsUpdateEvent Sample.shard 1 (Some (Time.mk_datetime 0))
       : Event nat Sample.Member Sample.Message Sample.Message JSONObject Z Z unit)
    = Return ts /\
    match SampleMore.pins_update !! "last_pin_timestamp" with
    | None | Some JNull => ts = None
    | Some raw =>
      exists t, iso8601_datetime_string_to_datetime Sample.app raw = Return t /\
                ts = Some t
    end.
Proof.
  apply (pins_timestamp_of_payload _ _ _ _ _ _ _ unit Sample.app Sample.shard
           SampleMore.pins_update).
  vm_compute. reflexivity.
Defined.

Lemma guild_event_needs_member_and_guild_id_witness :
  exists ex,
    decode (AvatarDecoration := unit) Sample.app ReactionAdd Sample.shard
      SampleMore.reaction_with_member_only
    = Raise ex.
Proof.
  apply (guild_event_needs_member_and_guild_id _ _ _ _ _ _ _ unit Sample.app
           ReactionAdd Sample.shard SampleMore.reaction_with_member_only).
  left. split; [reflexivity |]. split.
  - exists (JObj ∅). vm_compute. reflexivity.
  - vm_compute. reflexivity.
Defined.

Lemma voice_endpoint_of_payload_witness :
  exists raw,
    SampleMore.voice_server_update !! "endpoint" = Some raw /\
    (VoiceEvents.endpoint (fun _ => EmptyString)
       (VoiceEvents.mkVoiceServerUpdateEvent Sample.shard 4 (JStr "t")
          (JStr "example.org:443")) = None <-> raw = JNull) /\
    (forall s, raw = JStr s ->
               VoiceEvents.endpoint (fun _ => EmptyString)
                 (VoiceEvents.mkVoiceServerUpdateEvent Sample.shard 4 (JStr "t")
                    (JStr "example.org:443"))
               = Some ("wss://" ++ s)%string).
Proof.
  apply (voice_endpoint_of_payload _ _ _ _ _ _ _ Sample.app (fun _ => EmptyString)
           Sample.shard SampleMore.voice_server_update).
  vm_compute. reflexivity.
Defined.

Lemma integration_delete_of_payload_witness :
  match SampleMore.integration_delete !! "application_id" with
  | None | Some JNull =>
    IntegrationDelete.application_id
      (IntegrationDelete.mkIntegrationDeleteEvent 9 Sample.shard 4 None) = None
  | Some raw =>
    exists s, Snowflake_of Sample.app raw = Return s /\
              IntegrationDelete.application_id
                (IntegrationDelete.mkIntegrationDeleteEvent 9 Sample.shard 4 None)
              = Some s
  end /\
  (exists raw, SampleMore.integration_delete !! "id" = Some raw /\
               Snowflake_of Sample.app raw = Return 9) /\
  (exists raw, SampleMore.integration_delete !! "guild_id" = Some raw /\
               Snowflake_of Sample.app raw = Return 4).
Proof.
  apply (integration_delete_of_payload _ _ _ _ _ _ _ Sample.app Sample.shard
           SampleMore.integration_delete
           (IntegrationDelete.mkIntegrationDeleteEvent 9 Sample.shard 4 None)).
  vm_compute. reflexivity.
Defined.

Lemma auto_mod_optional_fields_witness :
  let event :=
    AutoMod.mkAutoModActionExecutionEvent Sample.shard 4 (JObj ∅) 5 1 3
      None None (Some 8) JNull JNull JNull in
  (AutoMod.channel_id event = None <->
   truthy (get SampleMore.auto_mod_action_execution "channel_id") = false) /\
  (AutoMod.message_id event = None <->
   truthy (get SampleMore.auto_mod_action_execution "message_id") = false) /\
  (AutoMod.alert_system_message_id event = None <->
   get SampleMore.auto_mod_action_execution "alert_system_message_id" = JNull) /\
  (AutoMod.content event = JNull \/ truthy (AutoMod.content event) = true) /\
  (AutoMod.matched_content event = JNull \/
   truthy (AutoMod.matched_content event) = true).
Proof.
  cbv zeta.
  apply (auto_mod_optional_fields _ _ _ _ _ _ _ Sample.app _ _
           (fun action => Return action) Sample.int_of Sample.shard
           SampleMore.auto_mod_action_execution).
  vm_compute. reflexivity.
Defined.

End EventFactoryMoreFacts.

Module MessageEventsFacts.
Import MessageEvents.

Section Facts.

Variable User : Type.
Variable user_is_bot : User -> bool.

(** X26: a create event and an update event that carry the same author
    and the same webhook id agree on [is_bot] and on [is_webhook].  They
    agree on [is_human] unless the author is a bot that is no webhook: the
    update event looks at the webhook id alone and calls that message
    human, the create event does not. *)
Theorem update_is_human_ignores_is_bot (message : Message User) :
  let partial :=
    mkPartialMessage (Defined (author message)) (Defined (webhook_id message)) in
  MessageUpdateEvent.is_bot user_is_bot partial
  = Defined (MessageCreateEvent.is_bot user_is_bot message) /\
  MessageUpdateEvent.is_webhook partial
  = Defined (MessageCreateEvent.is_webhook message) /\
  (MessageUpdateEvent.is_human user_is_bot partial
   = Defined (MessageCreateEvent.is_human user_is_bot message) <->
   MessageCreateEvent.is_bot user_is_bot message = false \/
   MessageCreateEvent.is_webhook message = true) /\
  (MessageCreateEvent.is_bot user_is_bot message = true ->
   MessageCreateEvent.is_webhook message = false ->
   MessageUpdateEvent.is_human user_is_bot partial = Defined true /\
   MessageCreateEvent.is_human user_is_bot message = false).
Proof.
  unfold MessageUpdateEvent.is_bot, MessageUpdateEvent.is_webhook,
    MessageUpdateEvent.is_human, MessageCreateEvent.is_bot,
    MessageCreateEvent.is_webhook, MessageCreateEvent.is_human.
  destruct message as [a [w|]]; simpl; destruct (user_is_bot a); simpl;
    repeat split; try reflexivity; try discriminate; auto;
    intros H; try discriminate H; destruct H as [H | H]; discriminate H.
Qed.

(** X27: on an update event [is_human] is known as soon as the author or
    the webhook id is: it is [UNDEFINED] exactly when [is_bot] and
    [is_webhook] both are. *)
Theorem update_is_human_undefined (message : PartialMessage User) :
  MessageUpdateEvent.is_human user_is_bot message = UNDEFINED <->
  MessageUpdateEvent.is_bot user_is_bot message = UNDEFINED /\
  MessageUpdateEvent.is_webhook message = UNDEFINED.
Proof.
  unfold MessageUpdateEvent.is_bot, MessageUpdateEvent.is_webhook,
    MessageUpdateEvent.is_human.
  destruct message as [[|a] [|w]]; simpl; split;
    try (intros H; discriminate H);
    try (intros [H1 H2]; discriminate);
    try (intros _; split; reflexivity);
    try reflexivity.
Qed.

End Facts.

End MessageEventsFacts.
